(** * Chart configuration and aggregation pipeline of the aviation safety dashboard

    A shallow embedding of [dashboard_streamlit.py]: two of the preprocessing
    steps of [load_data], the field catalogues, [prepare_chart_data],
    [generate_chart], [render_chart_builder], [render_custom_charts] and the
    filters of [main], followed by the properties of the pipeline.

    Python dictionaries are objects in a store, so that the in-place update
    done by [prepare_chart_data] and the [.copy()] of its caller are visible.
    Data frames are never updated in place by the chart pipeline and are
    plain values. *)

From Stdlib Require Import QArith Qcanon.
From stdpp Require Import gmap strings list sorting numbers.

Local Open Scope string_scope.

(** ** Cells and data frames *)

(** A cell of a data frame: a string, a number or the missing value (NaN).
    Numbers are exact rationals in canonical form, so that two cells hold the
    same number exactly when they are equal. *)
Inductive cell :=
  | CStr (s : string)
  | CNum (q : Qc)
  | CNaN.

#[global] Instance cell_eq_dec : EqDecision cell.
Proof. solve_decision. Defined.

(** [Series.notna] on one cell. *)
Definition notna (c : cell) : bool :=
  match c with CNaN => false | _ => true end.

Definition is_num (c : cell) : bool :=
  match c with CStr _ => false | _ => true end.

(** The order in which group keys are listed: numbers by value, strings
    lexicographically, numbers before strings. *)
Definition cell_leb (a b : cell) : bool :=
  match a, b with
  | CNum p, CNum q => bool_decide (p ≤ q)%Qc
  | CNum _, _ => true
  | CStr _, CNum _ => false
  | CStr s, CStr t => String.leb s t
  | CStr _, CNaN => true
  | CNaN, CNaN => true
  | CNaN, _ => false
  end.

Definition cell_le (a b : cell) : Prop := cell_leb a b = true.

#[global] Instance cell_le_dec : RelDecision cell_le.
Proof. intros a b. unfold cell_le. apply _. Defined.

(** A row maps column names to cells; a data frame is its column index and
    its rows, in order. *)
Abbreviation row := (gmap string cell).

Record DataFrame := mkDF {
  columns : list string;
  rows : list row
}.

#[global] Instance DataFrame_eq_dec : EqDecision DataFrame.
Proof. solve_decision. Defined.

(** [len(df)] *)
Definition len (df : DataFrame) : nat := length (rows df).

(** The cell of a row under a column; a cell that is not stored is missing. *)
Definition cell_at (x : string) (r : row) : cell := default CNaN (r !! x).

(** [df[x]] as the list of its cells. *)
Definition column (x : string) (df : DataFrame) : list cell :=
  map (cell_at x) (rows df).

(** ** Python values, exceptions and the store *)

Inductive pyval :=
  | PyNone
  | PyStr (s : string).

#[global] Instance pyval_eq_dec : EqDecision pyval.
Proof. solve_decision. Defined.

(** Truth value of [config.get(k)]: [None] and the empty string are false. *)
Definition truthy (v : pyval) : bool :=
  match v with
  | PyNone => false
  | PyStr s => negb (String.eqb s "")
  end.

Inductive exn :=
  | KeyError (k : string)
  | TypeError (what : string)
  | ValueError (what : string)
  | AttributeError (what : string)
  | IndexError (what : string)
  | DuplicateWidgetID (key : string).   (* Streamlit: two widgets with one key *)

#[global] Instance exn_eq_dec : EqDecision exn.
Proof. solve_decision. Defined.

(** A dictionary object and a reference to one. *)
Abbreviation dict := (gmap string pyval).
Definition loc := nat.

(** Arguments of a Plotly Express call: a name or [None], or a list ([path]). *)
Inductive param :=
  | PVal (v : pyval)
  | PPath (l : list pyval).

#[global] Instance param_eq_dec : EqDecision param.
Proof. solve_decision. Defined.

(** What a Plotly Express function returns: the figure of a chart type over a
    data frame with the arguments it was built from. *)
Record Figure := mkFig {
  fig_type : string;
  fig_data : DataFrame;
  fig_params : gmap string param
}.

#[global] Instance Figure_eq_dec : EqDecision Figure.
Proof. solve_decision. Defined.

(** What Streamlit is asked to show. *)
Inductive message :=
  | StError (prefix : string) (e : exn)   (* st.error(f"{prefix}{str(e)}") *)
  | StWarning (text : string)             (* st.warning(text) *)
  | StInfo (text : string)                (* st.info(text) *)
  | StSuccess (text : string)             (* st.success(text) *)
  | StPlot (fig : Figure).                (* st.plotly_chart(fig) *)

#[global] Instance message_eq_dec : EqDecision message.
Proof. solve_decision. Defined.

(** The state a call runs in: the dictionary objects, the list
    [st.session_state.custom_charts] and the page so far. *)
Record world := mkWorld {
  heap : gmap loc dict;
  custom_charts : list loc;
  screen : list message
}.

#[global] Instance world_eq_dec : EqDecision world.
Proof. solve_decision. Defined.

(** A value or a raised exception. *)
Definition result (A : Type) : Type := (exn + A)%type.

#[global] Instance result_ret : MRet result := λ A a, inr a.
#[global] Instance result_bind : MBind result := λ A B f m,
  match m with
  | inr a => f a
  | inl e => inl e
  end.
#[global] Instance result_fmap : FMap result := λ A B f m,
  match m with
  | inr a => inr (f a)
  | inl e => inl e
  end.

(** How a pass over the page ends: the script runs on, or [st.rerun()] has
    stopped it to run it again. *)
Inductive control := Finished | Rerun.

#[global] Instance control_eq_dec : EqDecision control.
Proof. solve_decision. Defined.

(** Computations that read and update the world and may raise. *)
Definition py (A : Type) : Type := world → result A * world.

#[global] Instance py_ret : MRet py := λ A a w, (inr a, w).
#[global] Instance py_bind : MBind py := λ A B f m w,
  match m w with
  | (inr a, w') => f a w'
  | (inl e, w') => (inl e, w')
  end.

Definition raise {A} (e : exn) : py A := λ w, (inl e, w).

(** [try: body except Exception as e: handler(e)] *)
Definition try_except {A} (body : py A) (handler : exn → py A) : py A := λ w,
  match body w with
  | (inr a, w') => (inr a, w')
  | (inl e, w') => handler e w'
  end.

(** Lifting of a pure computation that may raise. *)
Definition lift {A} (r : result A) : py A := λ w, (r, w).

Definition st_show (m : message) : py () := λ w,
  (inr (), mkWorld (heap w) (custom_charts w) (screen w ++ [m])).

(** Reading the object behind a reference. *)
Definition deref (c : loc) : py dict := λ w,
  match heap w !! c with
  | Some d => (inr d, w)
  | None => (inl (TypeError "not a dict"), w)
  end.

(** [config[k]] *)
Definition getitem (c : loc) (k : string) : py pyval :=
  d ← deref c;
  match d !! k with
  | Some v => mret v
  | None => raise (KeyError k)
  end.

(** [config.get(k)] and [config.get(k, dflt)] *)
Definition get (c : loc) (k : string) : py pyval :=
  d ← deref c; mret (default PyNone (d !! k)).

Definition get_default (c : loc) (k : string) (dflt : pyval) : py pyval :=
  d ← deref c; mret (default dflt (d !! k)).

(** [config[k] = v] *)
Definition setitem (c : loc) (k : string) (v : pyval) : py () := λ w,
  match heap w !! c with
  | Some d => (inr (), mkWorld (<[c := <[k := v]> d]> (heap w)) (custom_charts w) (screen w))
  | None => (inl (TypeError "not a dict"), w)
  end.

(** A reference no object is stored under. *)
Definition fresh_loc (h : gmap loc dict) : loc := fresh (dom h).

(** [config.copy()]: a new object with the same entries. *)
Definition copy (c : loc) : py loc := λ w,
  match heap w !! c with
  | Some d =>
      let c' := fresh_loc (heap w) in
      (inr c', mkWorld (<[c' := d]> (heap w)) (custom_charts w) (screen w))
  | None => (inl (TypeError "not a dict"), w)
  end.

(** A dictionary literal: a new object with the given entries. *)
Definition new_dict (d : dict) : py loc := λ w,
  let c := fresh_loc (heap w) in
  (inr c, mkWorld (<[c := d]> (heap w)) (custom_charts w) (screen w)).

(** [st.session_state.custom_charts] and [.append(c)] on it. *)
Definition get_custom_charts : py (list loc) := λ w, (inr (custom_charts w), w).

Definition append_custom_chart (c : loc) : py () := λ w,
  (inr (), mkWorld (heap w) (custom_charts w ++ [c]) (screen w)).

(** [st.session_state.custom_charts.pop(idx)] *)
Definition pop_custom_chart (idx : nat) : py () := λ w,
  if decide (idx < length (custom_charts w))%nat then
    (inr (), mkWorld (heap w) (delete idx (custom_charts w)) (screen w))
  else (inl (IndexError "pop index out of range"), w).

(** [str(v)] inside an f-string. *)
Definition py_str (v : pyval) : string :=
  match v with PyNone => "None" | PyStr s => s end.

(** ** The pandas operations the dashboard calls *)

(** [Series.fillna(v)] on one cell. *)
Definition fillna (v : cell) (c : cell) : cell :=
  match c with CNaN => v | _ => c end.

(** [Series.map(m)] with a dictionary, on one cell: a value that is not a key
    of the dictionary becomes missing. *)
Definition series_map (m : gmap string string) (c : cell) : cell :=
  match c with
  | CStr s => match m !! s with Some v => CStr v | None => CNaN end
  | _ => CNaN
  end.

(** [df[name] = cells]: the column is replaced, or appended when new. *)
Definition assign (name : string) (cells : list cell) (df : DataFrame) : DataFrame :=
  mkDF (if decide (name ∈ columns df) then columns df else columns df ++ [name])
       (zip_with (λ r c, <[name := c]> r) (rows df) cells).

(** [df[name]], which raises when there is no such column. *)
Definition getcol (name : string) (df : DataFrame) : result (list cell) :=
  if decide (name ∈ columns df) then inr (column name df) else inl (KeyError name).

Definition Qc_of_nat (n : nat) : Qc := Qc_of_Z (Z.of_nat n).

(** The keys of [df.groupby(x)]: the distinct values of the column, the
    missing value left out (the default [dropna=True]), in sorted order (the
    default [sort=True]). *)
Definition group_keys (x : string) (df : DataFrame) : list cell :=
  merge_sort cell_le (remove_dups (filter (λ c, c ≠ CNaN) (column x df))).

(** The rows of one group. *)
Definition group_rows (x : string) (k : cell) (df : DataFrame) : list row :=
  filter (λ r, cell_at x r = k) (rows df).

(** The number of elements of [l] whose key under [f] is [k]; the size of the
    group of [k] is [occurrences (cell_at x) k (rows df)]. *)
Definition occurrences {A K : Type} `{EqDecision K} (f : A → K) (k : K) (l : list A) : nat :=
  length (filter (λ a, f a = k) l).

(** [df.groupby(x).size().reset_index(name=name)] *)
Definition groupby_size (x : pyval) (name : string) (df : DataFrame) : result DataFrame :=
  match x with
  | PyNone => inl (TypeError "You have to supply one of 'by' and 'level'")
  | PyStr x =>
      if decide (x ∈ columns df) then
        if decide (x = name) then inl (ValueError "cannot insert, already exists")
        else inr (mkDF [x; name]
                   (map (λ k, {[ x := k;
                                 name := CNum (Qc_of_nat (length (group_rows x k df))) ]})
                        (group_keys x df)))
      else inl (KeyError x)
  end.

(** The numbers of a list of cells, the missing ones skipped. *)
Definition numbers_of (cs : list cell) : list Qc :=
  omap (λ c, match c with CNum q => Some q | _ => None end) cs.

Definition Qc_sum (l : list Qc) : Qc := foldr Qcplus 0%Qc l.
Definition Qc_min (a b : Qc) : Qc := if decide (a ≤ b)%Qc then a else b.
Definition Qc_max (a b : Qc) : Qc := if decide (a ≤ b)%Qc then b else a.

Definition Qc_median (l : list Qc) : cell :=
  let s := merge_sort Qcle l in
  let n := length s in
  if Nat.even n then
    match s !! (n / 2 - 1)%nat, s !! (n / 2)%nat with
    | Some a, Some b => CNum ((a + b) / Qc_of_nat 2)%Qc
    | _, _ => CNaN
    end
  else match s !! (n / 2)%nat with Some a => CNum a | None => CNaN end.

(** The reductions of a numeric column, by name: missing values are skipped;
    the sum of no value is 0, the other statistics of no value are missing.
    Floating-point arithmetic is rendered by exact rational arithmetic. *)
Definition numeric_agg (how : string) (cs : list cell) : result cell :=
  let vs := numbers_of cs in
  if decide (how = "sum") then inr (CNum (Qc_sum vs))
  else if decide (how = "mean") then
    inr (match vs with
         | [] => CNaN
         | _ => CNum (Qc_sum vs / Qc_of_nat (length vs))%Qc
         end)
  else if decide (how = "median") then inr (Qc_median vs)
  else if decide (how = "min") then
    inr (match vs with [] => CNaN | v :: vs' => CNum (foldr Qc_min v vs') end)
  else if decide (how = "max") then
    inr (match vs with [] => CNaN | v :: vs' => CNum (foldr Qc_max v vs') end)
  else inl (AttributeError how).

Section Pandas.

(** pandas' parser of numeric strings: the number a string denotes, if it
    denotes one. *)
Variable parse_numeric : string → option Qc.

(** pandas' reductions of a column that holds strings, by name. *)
Variable object_agg : string → list cell → result cell.

(** [pd.to_numeric(_, errors=errors)] on one cell. *)
Definition to_numeric (errors : string) (c : cell) : result cell :=
  match c with
  | CStr s =>
      match parse_numeric s with
      | Some q => inr (CNum q)
      | None =>
          if decide (errors = "coerce") then inr CNaN
          else inl (ValueError "Unable to parse string")
      end
  | _ => inr c
  end.

(** [df.groupby(x)[y].agg(how).reset_index()] *)
Definition groupby_agg (x : pyval) (y : string) (how : string) (df : DataFrame)
    : result DataFrame :=
  match x with
  | PyNone => inl (TypeError "You have to supply one of 'by' and 'level'")
  | PyStr x =>
      if decide (x ∈ columns df) then
        if decide (y ∈ columns df) then
          if decide (x = y) then inl (ValueError "cannot insert, already exists")
          else
            let reduce := if forallb is_num (column y df)
                          then numeric_agg how else object_agg how in
            rs ← mapM (λ k, v ← reduce (map (cell_at y) (group_rows x k df));
                            mret ({[ x := k; y := v ]} : row))
                      (group_keys x df);
            mret (mkDF [x; y] rs)
        else inl (KeyError ("Column not found: " ++ y))
      else inl (KeyError x)
  end.

(** [df.groupby(x)[y].median().reset_index()] *)
Definition groupby_median (x : pyval) (y : string) (df : DataFrame) : result DataFrame :=
  groupby_agg x y "median" df.

End Pandas.

(** ** Plotly Express *)

(** The part of [plotly.express] the dashboard is written against: the eleven
    functions the chart registry names. Chart types come from the select box
    of the builder, whose options are the keys of the registry; other
    attributes of the module are not modelled. *)
Definition px_functions : list string :=
  ["bar"; "line"; "scatter"; "pie"; "histogram"; "box"; "violin"; "area";
   "funnel"; "sunburst"; "treemap"].

(** [getattr(px, chart_type)] *)
Definition px_getattr (chart_type : pyval) : result string :=
  match chart_type with
  | PyNone => inl (TypeError "attribute name must be string")
  | PyStr f =>
      if decide (f ∈ px_functions) then inr f
      else inl (AttributeError f)
  end.

(** The keyword arguments, among those [generate_chart] may pass, that each
    function has. *)
Definition px_keywords (f : string) : list string :=
  if decide (f = "pie") then ["title"; "names"; "values"; "color"]
  else if decide (f ∈ ["sunburst"; "treemap"])
       then ["title"; "names"; "values"; "path"; "color"]
       else ["title"; "x"; "y"; "color"; "orientation"].

(** An argument that names a column must name one of the data frame;
    [title] and [orientation] are not column names; [None] is an argument
    that is not given. *)
Definition column_ref_ok (df : DataFrame) (k : string) (p : param) : Prop :=
  k ∈ ["title"; "orientation"] ∨
  match p with
  | PVal PyNone => True
  | PVal (PyStr s) => s ∈ columns df
  | PPath l => Forall (λ v, match v with PyStr s => s ∈ columns df | PyNone => False end) l
  end.

#[global] Instance column_ref_ok_dec df k p : Decision (column_ref_ok df k p).
Proof.
  unfold column_ref_ok. apply or_dec; [apply _|].
  destruct p as [[|s]|l]; [apply _ | apply _ |].
  apply Forall_dec. intros [|s]; [right; tauto | exact (decide (s ∈ columns df))].
Defined.

(** The check of [px.sunburst] and [px.treemap] on the columns of [path]
    (one column, as [generate_chart] calls them): a row whose path cell is
    missing is sorted last and is rejected as a row that is not a leaf when
    another row comes before it. *)
Definition leaves_ok (f : string) (df : DataFrame) (params : gmap string param) : Prop :=
  f ∈ ["sunburst"; "treemap"] →
  match params !! "path" with
  | Some (PPath l) =>
      (len df ≤ 1)%nat ∨
      Forall (λ v, forallb notna (column (py_str v) df) = true) l
  | _ => True
  end.

#[global] Instance leaves_ok_dec f df params : Decision (leaves_ok f df params).
Proof.
  unfold leaves_ok. apply impl_dec; [apply _|].
  destruct (params !! "path") as [[v|l]|]; apply _.
Defined.

(** The bars, boxes and areas of a figure are drawn vertically (['v']) or
    horizontally (['h']); no other orientation is a valid one. *)
Definition orientation_ok (params : gmap string param) : Prop :=
  match params !! "orientation" with
  | Some (PVal (PyStr o)) => o ∈ ["v"; "h"]
  | Some (PPath _) => False
  | _ => True
  end.

#[global] Instance orientation_ok_dec params : Decision (orientation_ok params).
Proof.
  unfold orientation_ok. destruct (params !! "orientation") as [[[|o]|l]|]; apply _.
Defined.

(** [px_func(df, **params)]: an unknown keyword raises [TypeError]; a column
    that is not in the data frame, a row of a hierarchy that is not a leaf
    and an orientation that is none raise [ValueError]; otherwise the figure
    is built. These are the checks of the calls [generate_chart] can make
    with the names of columns; what Plotly Express requires of the cells
    beyond them (the values of a hierarchy must convert to numbers) is not
    part of the model. *)
Definition px_call (f : string) (df : DataFrame) (params : gmap string param)
    : result Figure :=
  if decide (map_Forall (λ k _, k ∈ px_keywords f) params) then
    if decide (map_Forall (column_ref_ok df) params) then
      if decide (leaves_ok f df params) then
        if decide (orientation_ok params) then inr (mkFig f df params)
        else inl (ValueError "Invalid value for the 'orientation' property")
      else inl (ValueError "Non-leaves rows are not permitted in the dataframe")
    else inl (ValueError "not the name of a column in 'data_frame'")
  else inl (TypeError "got an unexpected keyword argument").

(** ** The dashboard *)

(** An entry of [CHART_TYPES]; a flag the entry does not have is [false]. *)
Record ChartFamilyDescriptor := mkDescr {
  label : string;
  needs_y : bool;
  supports_orientation : bool;
  supports_markers : bool;
  supports_size : bool;
  y_label : option string;
  hierarchical : bool
}.

Definition CHART_TYPES : list (string * ChartFamilyDescriptor) :=
  [ ("bar",       mkDescr "Bar Chart"      true  true  false false None false);
    ("line",      mkDescr "Line Chart"     true  false true  false None false);
    ("scatter",   mkDescr "Scatter Plot"   true  false false true  None false);
    ("pie",       mkDescr "Pie Chart"      true  false false false (Some "Values") false);
    ("histogram", mkDescr "Histogram"      false false false false None false);
    ("box",       mkDescr "Box Plot"       true  false false false None false);
    ("violin",    mkDescr "Violin Plot"    true  false false false None false);
    ("area",      mkDescr "Area Chart"     true  false false false None false);
    ("funnel",    mkDescr "Funnel Chart"   true  false false false None false);
    ("sunburst",  mkDescr "Sunburst Chart" true  false false false None true);
    ("treemap",   mkDescr "Treemap"        true  false false false None true) ].

Definition AGGREGATIONS : list string :=
  ["count"; "sum"; "mean"; "median"; "min"; "max"].

(** [CHART_TYPES[chart_type]] *)
Definition describe (chart_type : string) : result ChartFamilyDescriptor :=
  match list_find (λ e, e.1 = chart_type) CHART_TYPES with
  | Some (_, (_, d)) => inr d
  | None => inl (KeyError chart_type)
  end.

Definition damage_map : gmap string string :=
  list_to_map [ ("w/o", "Written off"); ("sub", "Substantial");
                ("min", "Minor"); ("non", "None"); ("", "Unknown") ].

(** The [damage_full] cell of a [damage] cell:
    [df['damage'].map(damage_map).fillna('Unknown')]. *)
Definition damage_full (c : cell) : cell :=
  fillna (CStr "Unknown") (series_map damage_map c).

Definition get_numeric_fields (df : DataFrame) (is_enhanced : bool) : list string :=
  ["year"; "month"; "fatalities_num"].

Definition get_categorical_fields (df : DataFrame) (is_enhanced : bool) : list string :=
  let base_categorical :=
    ["type"; "aircraft_category"; "operator"; "location";
     "damage"; "damage_full"; "type_code"] in
  if is_enhanced then
    let enhanced_categorical :=
      ["phase"; "nature"; "departure_airport";
       "destination_airport"; "category"; "engine_model"] in
    base_categorical ++
      filter (λ f, f ∈ columns df ∧ existsb notna (column f df) = true)
             enhanced_categorical
  else base_categorical.

(** The widgets of the chart builder, as the user left them: a selection is
    the position of the chosen option. *)
Record builder_widgets := mkWidgets {
  w_title : string;
  w_chart_type : nat;
  w_x_field : nat;
  w_y_field : nat;
  w_aggregation : nat;
  w_show_advanced : bool;
  w_color_field : nat;
  w_orientation : nat;
  w_add_chart : bool;
  w_now : string            (* datetime.now().strftime('%Y%m%d_%H%M%S_%f') *)
}.

(** [st.selectbox(options)] and [st.radio(options)]: the chosen option, the
    first one when nothing else was chosen, [None] when there is no option. *)
Definition selectbox (options : list string) (choice : nat) : pyval :=
  match options !! choice with
  | Some o => PyStr o
  | None => match options with o :: _ => PyStr o | [] => PyNone end
  end.

Section Dashboard.

Variable parse_numeric : string → option Qc.
Variable object_agg : string → list cell → result cell.

(** *** [load_data]: the derived columns

    Two of the assignments of [load_data], each as a step from the frame
    before it to the frame after it: [fatalities_num] (line 67) and
    [damage_full] (lines 73 to 80). The date columns and the fatal-accident
    flag hold dates and booleans, which cells do not model. *)

(** The [fatalities_num] cell of a [fatalities] cell:
    [pd.to_numeric(_, errors='coerce').fillna(0)]. *)
Definition fatalities_num (c : cell) : result cell :=
  fillna (CNum (Qc_of_Z 0)) <$> to_numeric parse_numeric "coerce" c.

(** [df['fatalities_num'] = pd.to_numeric(df['fatalities'], errors='coerce').fillna(0)] *)
Definition with_fatalities_num (df : DataFrame) : result DataFrame :=
  fat ← getcol "fatalities" df;
  nums ← mapM fatalities_num fat;
  mret (assign "fatalities_num" nums df).

(** [df['damage_full'] = df['damage'].map(damage_map).fillna('Unknown')] *)
Definition with_damage_full (df : DataFrame) : result DataFrame :=
  dmg ← getcol "damage" df;
  mret (assign "damage_full" (map damage_full dmg) df).

(** *** [prepare_chart_data] *)

Definition prepare_chart_data (df : DataFrame) (config : loc) : py (option DataFrame) :=
  try_except
    (x_field ← getitem config "x_field";
     y_field ← get config "y_field";
     aggregation ← get_default config "aggregation" (PyStr "count");
     (* aggregation == 'none' or config['chart_type'] in [...] *)
     raw ← (if decide (aggregation = PyStr "none") then mret true
            else chart_type ← getitem config "chart_type";
                 mret (bool_decide (chart_type ∈ [PyStr "scatter"; PyStr "histogram"])));
     if (raw : bool) then mret (Some df)
     else if decide (aggregation = PyStr "count") then
       result ← lift (groupby_size x_field "count" df);
       _ ← setitem config "y_field" (PyStr "count");
       mret (Some result)
     else if truthy y_field &&
             bool_decide (aggregation ∈ map PyStr ["sum"; "mean"; "median"; "min"; "max"])
     then
       if decide (aggregation = PyStr "median") then
         result ← lift (groupby_median object_agg x_field (py_str y_field) df);
         mret (Some result)
       else
         result ← lift (groupby_agg object_agg x_field (py_str y_field)
                                    (py_str aggregation) df);
         mret (Some result)
     else mret (Some df))
    (λ e, _ ← st_show (StError "Data preparation error: " e); mret None).

(** *** [generate_chart] *)

Definition generate_chart (df : option DataFrame) (config : loc) : py (option Figure) :=
  try_except
    (match df with
     | None =>
         _ ← st_show (StWarning "No data available for this chart configuration.");
         mret None
     | Some df =>
         if decide (len df = 0%nat) then
           _ ← st_show (StWarning "No data available for this chart configuration.");
           mret None
         else
           chart_type ← getitem config "chart_type";
           px_func ← lift (px_getattr chart_type);
           title ← getitem config "title";
           let params : gmap string param := {[ "title" := PVal title ]} in
           params ←
             (if bool_decide (chart_type ∈ map PyStr ["pie"; "sunburst"; "treemap"]) then
                values ← get_default config "y_field" (PyStr "count");
                let params := <["values" := PVal values]> params in
                names ← getitem config "x_field";
                let params := <["names" := PVal names]> params in
                if bool_decide (chart_type ∈ map PyStr ["sunburst"; "treemap"]) then
                  x ← getitem config "x_field";
                  let params := <["path" := PPath [x]]> params in
                  mret (delete "names" params)
                else mret params
              else
                x ← getitem config "x_field";
                let params := <["x" := PVal x]> params in
                y ← get config "y_field";
                if truthy y then
                  y ← getitem config "y_field";
                  mret (<["y" := PVal y]> params)
                else mret params);
           color ← get config "color_field";
           params ← (if truthy color then
                       color ← getitem config "color_field";
                       mret (<["color" := PVal color]> params)
                     else mret params);
           orientation ← get config "orientation";
           params ← (if truthy orientation then
                       orientation ← getitem config "orientation";
                       mret (<["orientation" := PVal orientation]> params)
                     else mret params);
           fig ← lift (px_call px_func df params);
           mret (Some fig)
     end)
    (λ e, _ ← st_show (StError "Chart generation error: " e); mret None).

(** *** [render_chart_builder] *)

Definition render_chart_builder (df : DataFrame) (is_enhanced : bool)
    (ui : builder_widgets) : py (option loc) :=
  let chart_title := w_title ui in
  let chart_type := selectbox (map fst CHART_TYPES) (w_chart_type ui) in
  chart_config ← lift (describe (py_str chart_type));
  let numeric_fields := get_numeric_fields df is_enhanced in
  let categorical_fields := get_categorical_fields df is_enhanced in
  let all_fields := (categorical_fields ++ numeric_fields)%list in
  let x_field := selectbox all_fields (w_x_field ui) in
  let y_field :=
    if needs_y chart_config then selectbox numeric_fields (w_y_field ui)
    else PyNone in
  let aggregation :=
    if bool_decide (x_field ∈ map PyStr categorical_fields) && truthy y_field
    then selectbox AGGREGATIONS (w_aggregation ui)
    else if decide (chart_type = PyStr "histogram") then PyStr "none"
    else PyStr "count" in
  let color_field :=
    if w_show_advanced ui then
      let color_field := selectbox ("None" :: categorical_fields) (w_color_field ui) in
      if decide (color_field = PyStr "None") then PyNone else color_field
    else PyNone in
  let orientation :=
    if w_show_advanced ui then
      if supports_orientation chart_config then
        let orientation := selectbox ["Horizontal"; "Vertical"] (w_orientation ui) in
        if decide (orientation = PyStr "Horizontal") then PyStr "h" else PyStr "v"
      else PyNone
    else PyNone in
  if w_add_chart ui then
    new_chart ← new_dict (list_to_map
      [ ("id", PyStr ("chart_" ++ w_now ui));
        ("title", PyStr chart_title);
        ("chart_type", chart_type);
        ("x_field", x_field);
        ("y_field", y_field);
        ("aggregation", aggregation);
        ("color_field", color_field);
        ("orientation", orientation) ]);
    _ ← append_custom_chart new_chart;
    _ ← st_show (StSuccess "✓ Chart added successfully!");
    mret (Some new_chart)
  else mret None.

(** *** [render_custom_charts] *)

(** The first column of the loop body ([with col1:]), for one stored chart:
    the data are prepared on a copy of the configuration, the chart is
    generated from the stored configuration itself. *)
Definition render_custom_chart (filtered_df : DataFrame) (chart_config : loc) : py () :=
  config_copy ← copy chart_config;
  chart_data ← prepare_chart_data filtered_df config_copy;
  match chart_data with
  | Some data =>
      if decide (0 < len data)%nat then
        fig ← generate_chart (Some data) chart_config;
        match fig with
        | Some fig => st_show (StPlot fig)
        | None => (mret () : py ())
        end
      else
        title ← getitem chart_config "title";
        st_show (StWarning ("No data available for chart: " ++ py_str title))
  | None =>
      title ← getitem chart_config "title";
      st_show (StWarning ("No data available for chart: " ++ py_str title))
  end.

(** The loop over [enumerate(st.session_state.custom_charts)], from position
    [idx] on: the first column, then the second one ([with col2:]) with the
    Delete button. The key of the button reads the [id] of the configuration;
    Streamlit refuses a key that a button of this pass already has, and
    [clicked] tells of which keys the button was clicked. A click removes the
    chart at that position and [st.rerun()] ends the pass. *)
Fixpoint render_rows (filtered_df : DataFrame) (clicked : string → bool)
    (idx : nat) (keys : list string) (charts : list loc) : py control :=
  match charts with
  | [] => mret Finished
  | chart_config :: charts =>
      _ ← render_custom_chart filtered_df chart_config;
      id ← getitem chart_config "id";
      let key := "delete_" ++ py_str id in
      if decide (key ∈ keys) then raise (DuplicateWidgetID key)
      else if clicked key then
        _ ← pop_custom_chart idx;
        mret Rerun
      else render_rows filtered_df clicked (S idx) (key :: keys) charts
  end.

(** One pass over the stored charts; headings, columns and separators are
    not part of the page model. *)
Definition render_custom_charts (filtered_df : DataFrame) (clicked : string → bool)
    : py control :=
  charts ← get_custom_charts;
  match charts with
  | [] =>
      _ ← st_show (StInfo
        "No custom charts yet. Use the Chart Builder in the sidebar to create one!");
      mret Finished
  | _ => render_rows filtered_df clicked 0 [] charts
  end.

End Dashboard.

(** ** Concrete instances and sample data *)

(** A parser of unsigned decimal numerals, one instance of the numeric
    parser. *)
Definition digit_of (a : Ascii.ascii) : option Z :=
  let n := Z.of_N (Ascii.N_of_ascii a) in
  if ((48 <=? n) && (n <=? 57))%Z then Some (n - 48)%Z else None.

Fixpoint parse_digits (acc : Z) (s : string) : option Z :=
  match s with
  | EmptyString => Some acc
  | String a s => d ← digit_of a; parse_digits (acc * 10 + d)%Z s
  end.

Definition parse_decimal (s : string) : option Qc :=
  match s with
  | EmptyString => None
  | _ => Qc_of_Z <$> parse_digits 0 s
  end.

(** An instance of the reductions of string columns: every one fails. *)
Definition no_object_agg (how : string) (cs : list cell) : result cell :=
  inl (TypeError "agg function failed").

Module Sample.

(** The table of the specification's examples, as read from a file. *)
Definition record (aircraft fatalities : string) : row :=
  {[ "aircraft_category" := CStr aircraft; "fatalities" := CStr fatalities ]}.

Definition raw_table : DataFrame :=
  mkDF ["aircraft_category"; "fatalities"]
       [ record "ATR 72-600" "0"; record "ATR 72-600" "5"; record "Dash 8-400" "" ].

(** The same records with the derived [fatalities_num] column. *)
Definition coerced (aircraft fatalities : string) (n : Z) : row :=
  <[ "fatalities_num" := CNum (Qc_of_Z n) ]> (record aircraft fatalities).

Definition table : DataFrame :=
  mkDF ["aircraft_category"; "fatalities"; "fatalities_num"]
       [ coerced "ATR 72-600" "0" 0; coerced "ATR 72-600" "5" 5;
         coerced "Dash 8-400" "" 0 ].

(** A table whose only record has no operator. *)
Definition no_operator : DataFrame :=
  mkDF ["operator"; "fatalities_num"]
       [ {[ "operator" := CNaN; "fatalities_num" := CNum (Qc_of_Z 3) ]} ].

(** A stored configuration over [table]. *)
Definition chart (chart_type : string) (x_field : string) (y_field : pyval)
    (aggregation : string) : dict :=
  list_to_map
    [ ("id", PyStr "chart_0"); ("title", PyStr "My Custom Chart");
      ("chart_type", PyStr chart_type); ("x_field", PyStr x_field);
      ("y_field", y_field); ("aggregation", PyStr aggregation);
      ("color_field", PyNone); ("orientation", PyNone) ].

(** The world in which [d] is the one stored chart, under reference 0. *)
Definition session (d : dict) : world := mkWorld {[ 0%nat := d ]} [0%nat] [].

(** A bar chart stored without a y field. *)
Definition bar_without_y : dict := chart "bar" "aircraft_category" PyNone "count".

Definition bar_figure : Figure :=
  mkFig "bar" table
        (list_to_map [ ("title", PVal (PyStr "My Custom Chart"));
                       ("x", PVal (PyStr "aircraft_category")) ]).

(** A sunburst chart of the raw rows. *)
Definition sunburst_raw : dict :=
  chart "sunburst" "aircraft_category" (PyStr "fatalities_num") "none".

Definition sunburst_figure : Figure :=
  mkFig "sunburst" table
        (list_to_map [ ("title", PVal (PyStr "My Custom Chart"));
                       ("values", PVal (PyStr "fatalities_num"));
                       ("path", PPath [PyStr "aircraft_category"]) ]).

(** A pie chart of the rows. *)
Definition pie_raw : dict :=
  chart "pie" "aircraft_category" (PyStr "fatalities_num") "none".

Definition pie_figure : Figure :=
  mkFig "pie" table
        (list_to_map [ ("title", PVal (PyStr "My Custom Chart"));
                       ("values", PVal (PyStr "fatalities_num"));
                       ("names", PVal (PyStr "aircraft_category")) ]).




(** Total fatalities by aircraft category. *)
Definition fatalities_sum : dict :=
  chart "bar" "aircraft_category" (PyStr "fatalities_num") "sum".

Definition widgets (chart_type x_field y_field : nat) : builder_widgets :=
  mkWidgets "My Custom Chart" chart_type x_field y_field 0 false 0 0 true
            "20240101_000000_000000".

End Sample.

(** ** Frame conditions *)

(** A computation that leaves the stored objects and the list of charts as
    they are: it may only write to the page. *)
Definition reads_only {A : Type} (m : py A) : Prop :=
  ∀ w, heap (m w).2 = heap w ∧ custom_charts (m w).2 = custom_charts w.

(** ** The call made by [generate_chart] *)

(** [cfg[k]] on the entries of a configuration. *)
Definition lookup_item (cfg : dict) (k : string) : result pyval :=
  match cfg !! k with
  | Some v => inr v
  | None => inl (KeyError k)
  end.

(** The Plotly Express function and the arguments [generate_chart] calls it
    with, as a function of the entries of the configuration
    ([generate_chart_call] below relates the two). *)
Definition chart_call (cfg : dict) : result (string * gmap string param) :=
  chart_type ← lookup_item cfg "chart_type";
  px_func ← px_getattr chart_type;
  title ← lookup_item cfg "title";
  let params : gmap string param := {[ "title" := PVal title ]} in
  params ←
    (if bool_decide (chart_type ∈ map PyStr ["pie"; "sunburst"; "treemap"]) then
       let values := default (PyStr "count") (cfg !! "y_field") in
       let params := <["values" := PVal values]> params in
       names ← lookup_item cfg "x_field";
       let params := <["names" := PVal names]> params in
       if bool_decide (chart_type ∈ map PyStr ["sunburst"; "treemap"])
       then mret (delete "names" (<["path" := PPath [names]]> params))
       else mret params
     else
       x ← lookup_item cfg "x_field";
       let params := <["x" := PVal x]> params in
       let y := default PyNone (cfg !! "y_field") in
       mret (if truthy y then <["y" := PVal y]> params else params));
  let color := default PyNone (cfg !! "color_field") in
  let params := if truthy color then <["color" := PVal color]> params else params in
  let orientation := default PyNone (cfg !! "orientation") in
  let params :=
    if truthy orientation then <["orientation" := PVal orientation]> params
    else params in
  mret (px_func, params).

(** What [generate_chart] returns and shows for the outcome of the call. *)
Definition chart_outcome (w : world) (r : result Figure) : result (option Figure) * world :=
  match r with
  | inr fig => (inr (Some fig), w)
  | inl e =>
      (inr None,
       mkWorld (heap w) (custom_charts w)
               (screen w ++ [StError "Chart generation error: " e]))
  end.

(** ** The filters of [main] *)

(** [df[mask]]: the rows at which the mask holds, in order. *)
Definition boolean_index (mask : list bool) (df : DataFrame) : DataFrame :=
  mkDF (columns df) (map fst (filter (λ p, p.2 = true) (zip (rows df) mask))).

(** [(df['year'] >= lo) & (df['year'] <= hi)] on one cell: a comparison with
    a missing value is false, the comparison of a string with a number
    raises. *)
Definition in_year_range (lo hi : Z) (c : cell) : result bool :=
  match c with
  | CNum q => inr (bool_decide (Qc_of_Z lo ≤ q)%Qc && bool_decide (q ≤ Qc_of_Z hi)%Qc)
  | CNaN => inr false
  | CStr _ => inl (TypeError "'>=' not supported between instances of 'str' and 'int'")
  end.

(** [df[(df['year'] >= year_range[0]) & (df['year'] <= year_range[1])]] *)
Definition filter_year_range (year_range : Z * Z) (df : DataFrame) : result DataFrame :=
  years ← getcol "year" df;
  mask ← mapM (in_year_range year_range.1 year_range.2) years;
  mret (boolean_index mask df).

(** [Series.isin(values)] on one cell, for a list of strings. *)
Definition isin (values : list string) (c : cell) : bool :=
  match c with
  | CStr s => bool_decide (s ∈ values)
  | _ => false
  end.

(** [if 'All' not in selected and selected:
        filtered_df = filtered_df[filtered_df[field].isin(selected)]],
    the filter by aircraft type and by flight phase. *)
Definition filter_selected (field : string) (selected : list string) (df : DataFrame)
    : result DataFrame :=
  if bool_decide ("All" ∉ selected) && bool_decide (selected ≠ []) then
    col ← getcol field df;
    mret (boolean_index (map (isin selected) col) df)
  else inr df.

(** * Properties *)

(** ** Running the monad *)

Ltac py_unfold :=
  cbv beta iota zeta delta
    [prepare_chart_data generate_chart render_custom_chart try_except
     mbind py_bind mret py_ret getitem get get_default deref lift raise
     setitem st_show copy].

Ltac py_simpl := cbv beta iota zeta.

Tactic Notation "py_run" "with" constr(H) := repeat (rewrite H; py_simpl).

Lemma elem_of_PyStr (s : string) (l : list string) :
  PyStr s ∈ map PyStr l ↔ s ∈ l.
Proof.
  split.
  - intros H. apply list_elem_of_fmap in H as (t & [= ->] & Ht). exact Ht.
  - intros H. apply list_elem_of_fmap. eauto.
Qed.

(** ** The damage labels *)

(** C8: the label of a damage code is given by the fixed table
    ([w/o] to [Written off], [sub] to [Substantial], [min] to [Minor],
    [non] to [None], the empty code to [Unknown]), every other code is
    labelled [Unknown], and whatever the [damage] cell holds, the
    [damage_full] cell is one of these five labels. *)
Theorem damage_full_labels :
  (∀ s : string,
     damage_full (CStr s) =
       CStr (if decide (s = "w/o") then "Written off"
             else if decide (s = "sub") then "Substantial"
             else if decide (s = "min") then "Minor"
             else if decide (s = "non") then "None"
             else "Unknown")) ∧
  (∀ c : cell,
     damage_full c ∈
       map CStr ["Written off"; "Substantial"; "Minor"; "None"; "Unknown"]).
Proof.
  assert (Hs : ∀ s : string,
     damage_full (CStr s) =
       CStr (if decide (s = "w/o") then "Written off"
             else if decide (s = "sub") then "Substantial"
             else if decide (s = "min") then "Minor"
             else if decide (s = "non") then "None"
             else "Unknown")).
  { intros s. unfold damage_full, series_map, damage_map. simpl.
    repeat (rewrite lookup_insert; case_decide; subst; simpl; [reflexivity|]).
    rewrite lookup_empty. simpl.
    repeat (case_decide; [congruence|]). reflexivity. }
  split; [exact Hs|].
  intros [s|q|].
  - rewrite Hs. repeat case_decide; set_solver.
  - simpl. set_solver.
  - simpl. set_solver.
Qed.

(** ** [generate_chart] on an empty or missing table *)

(** C4: whatever the configuration, a table with no row, or no table at all,
    gives no figure, and the warning "No data available for this chart
    configuration." is shown; the stored objects are left as they were. *)
Theorem generate_chart_no_data (cols : list string) (config : loc) (w : world) :
  let warned :=
    mkWorld (heap w) (custom_charts w)
            (screen w ++ [StWarning "No data available for this chart configuration."]) in
  generate_chart None config w = (inr None, warned) ∧
  generate_chart (Some (mkDF cols [])) config w = (inr None, warned).
Proof.
  split; reflexivity.
Qed.

(** ** [prepare_chart_data]: the branches that return the table as it is *)

Section Prepare_raw.

Variable object_agg : string → list cell → result cell.

Lemma prepare_aggregation_none (df : DataFrame) (config : loc) (w : world) (cfg : dict) :
  heap w !! config = Some cfg →
  is_Some (cfg !! "x_field") →
  cfg !! "aggregation" = Some (PyStr "none") →
  prepare_chart_data object_agg df config w = (inr (Some df), w).
Proof.
  intros Hc [x Hx] Hagg.
  py_unfold. py_run with Hc. rewrite Hx. py_run with Hc.
  rewrite Hagg. reflexivity.
Qed.

(** C10: for a configuration of chart type [scatter] or [histogram] the
    table is returned as it is, whatever the [aggregation] entry holds
    (also when it is absent): no grouping is done, nothing is shown and no
    object is updated. *)
Theorem prepare_scatter_histogram_raw
    (df : DataFrame) (config : loc) (w : world) (cfg : dict) (chart_type : string) :
  heap w !! config = Some cfg →
  is_Some (cfg !! "x_field") →
  cfg !! "chart_type" = Some (PyStr chart_type) →
  chart_type ∈ ["scatter"; "histogram"] →
  prepare_chart_data object_agg df config w = (inr (Some df), w).
Proof.
  intros Hc [x Hx] Hct Hin.
  py_unfold. py_run with Hc. rewrite Hx. py_run with Hc.
  destruct (decide (default (PyStr "count") (cfg !! "aggregation") = PyStr "none"))
    as [Hnone|Hnone].
  - reflexivity.
  - py_run with Hc. rewrite Hct. py_simpl.
    rewrite bool_decide_true; [reflexivity|].
    apply (elem_of_PyStr chart_type ["scatter"; "histogram"]), Hin.
Qed.

End Prepare_raw.

Lemma prepare_scatter_histogram_raw_witness :
  prepare_chart_data no_object_agg Sample.table 0
    (Sample.session (Sample.chart "scatter" "aircraft_category"
                       (PyStr "fatalities_num") "sum"))
  = (inr (Some Sample.table),
     Sample.session (Sample.chart "scatter" "aircraft_category"
                       (PyStr "fatalities_num") "sum")).
Proof.
  apply (prepare_scatter_histogram_raw no_object_agg Sample.table 0 _
           (Sample.chart "scatter" "aircraft_category" (PyStr "fatalities_num") "sum")
           "scatter").
  - reflexivity.
  - eexists. reflexivity.
  - reflexivity.
  - apply list_elem_of_here.
Defined.

(** ** Counting by group *)

Section Counting.

Context {A K : Type} `{EqDecision K}.
Variable f : A → K.

Lemma occurrences_cons (k : K) (a : A) (l : list A) :
  occurrences f k (a :: l) =
    ((if decide (f a = k) then 1 else 0) + occurrences f k l)%nat.
Proof.
  unfold occurrences. rewrite filter_cons.
  destruct (decide (f a = k)); reflexivity.
Qed.

(** Over keys without repetition, the group sizes add up to the number of
    elements whose key is among them. *)
Lemma occurrences_sum (ks : list K) (l : list A) :
  NoDup ks →
  foldr (λ k n, (occurrences f k l + n)%nat) 0%nat ks =
    length (filter (λ a, f a ∈ ks) l).
Proof.
  intros Hnd. induction l as [|a l IH].
  - clear Hnd. induction ks as [|k ks IHks]; [reflexivity|].
    simpl in *. rewrite IHks. reflexivity.
  - rewrite filter_cons.
    assert (Hstep : ∀ ks', NoDup ks' →
      foldr (λ k n, (occurrences f k (a :: l) + n)%nat) 0%nat ks' =
        ((if decide (f a ∈ ks') then 1 else 0) +
         foldr (λ k n, (occurrences f k l + n)%nat) 0%nat ks')%nat).
    { clear. induction ks' as [|k ks' IHks']; intros Hnd'.
      - simpl. destruct (decide (f a ∈ [])) as [Hin|_]; [|reflexivity].
        apply elem_of_nil in Hin. destruct Hin.
      - pose proof (NoDup_cons_1_1 _ _ Hnd') as Hk. apply NoDup_cons_1_2 in Hnd'.
        simpl. rewrite (IHks' Hnd'), occurrences_cons.
        destruct (decide (f a = k)) as [E|E];
          destruct (decide (f a ∈ ks')) as [H2|H2];
          destruct (decide (f a ∈ k :: ks')) as [H1|H1];
          rewrite elem_of_cons in H1;
          try lia; exfalso; subst; tauto. }
    rewrite (Hstep ks Hnd), IH.
    destruct (decide (f a ∈ ks)); reflexivity.
Qed.

End Counting.

(** ** [prepare_chart_data] with [aggregation = count] *)

Lemma group_keys_spec (x : string) (df : DataFrame) (k : cell) :
  k ∈ group_keys x df ↔ k ≠ CNaN ∧ k ∈ column x df.
Proof.
  unfold group_keys.
  rewrite merge_sort_Permutation, elem_of_remove_dups, list_elem_of_filter.
  reflexivity.
Qed.

Lemma group_keys_NoDup (x : string) (df : DataFrame) : NoDup (group_keys x df).
Proof.
  unfold group_keys. rewrite merge_sort_Permutation. apply NoDup_remove_dups.
Qed.

Lemma Qc_of_nat_add (n m : nat) : Qc_of_nat (n + m) = (Qc_of_nat n + Qc_of_nat m)%Qc.
Proof. unfold Qc_of_nat. rewrite Nat2Z.inj_add. apply Z2Qc_inj_add. Qed.

Lemma Qc_sum_counts {K} (g : K → nat) (ks : list K) :
  Qc_sum (numbers_of (map (λ k, CNum (Qc_of_nat (g k))) ks)) =
    Qc_of_nat (foldr (λ k n, (g k + n)%nat) 0%nat ks).
Proof.
  induction ks as [|k ks IH]; [symmetry; apply Z2Qc_inj_0|].
  simpl. rewrite Qc_of_nat_add, <- IH. reflexivity.
Qed.

(** The rows whose key is kept by [groupby] are those whose key is not
    missing. *)
Lemma grouped_rows_length (x : string) (df : DataFrame) :
  length (filter (λ r, cell_at x r ∈ group_keys x df) (rows df)) =
    length (filter (λ c, c ≠ CNaN) (column x df)).
Proof.
  unfold column.
  assert (H : ∀ l, (∀ r, r ∈ l → cell_at x r ∈ column x df) →
    length (filter (λ r, cell_at x r ∈ group_keys x df) l) =
      length (filter (λ c, c ≠ CNaN) (map (cell_at x) l))).
  { induction l as [|r l IH]; intros Hl; [reflexivity|].
    simpl. rewrite !filter_cons.
    assert (Hr : cell_at x r ∈ column x df) by (apply Hl, list_elem_of_here).
    assert (IH' := IH (λ r' Hr', Hl r' (list_elem_of_further _ _ _ Hr'))).
    destruct (decide (cell_at x r ∈ group_keys x df)) as [Hk|Hk];
      destruct (decide (cell_at x r ≠ CNaN)) as [Hn|Hn]; simpl; rewrite ?IH'; try reflexivity.
    - apply group_keys_spec in Hk as [Hk _]. contradiction.
    - exfalso. apply Hk, group_keys_spec. split; assumption. }
  apply H. intros r Hr. apply list_elem_of_fmap. eauto.
Qed.

Lemma groupby_size_columns (x name : string) (df : DataFrame) :
  x ≠ name →
  let out := mkDF [x; name]
    (map (λ k, ({[ x := k; name := CNum (Qc_of_nat (length (group_rows x k df))) ]} : row))
         (group_keys x df)) in
  column x out = group_keys x df ∧
  column name out =
    map (λ k, CNum (Qc_of_nat (length (group_rows x k df)))) (group_keys x df).
Proof.
  intros Hne out. unfold column, out. cbn [rows]. rewrite !map_map. split.
  - rewrite <- (map_id (group_keys x df)) at 2. apply map_ext. intros k.
    unfold cell_at. rewrite lookup_insert_eq. reflexivity.
  - apply map_ext. intros k. unfold cell_at.
    rewrite lookup_insert_ne by exact Hne. rewrite lookup_singleton_eq. reflexivity.
Qed.

Section Prepare_count.

Variable object_agg : string → list cell → result cell.

Lemma prepare_count_run
    (df : DataFrame) (config : loc) (w : world) (cfg : dict) (x : pyval) (chart_type : pyval) :
  heap w !! config = Some cfg →
  cfg !! "x_field" = Some x →
  default (PyStr "count") (cfg !! "aggregation") = PyStr "count" →
  cfg !! "chart_type" = Some chart_type →
  chart_type ∉ [PyStr "scatter"; PyStr "histogram"] →
  prepare_chart_data object_agg df config w =
    match groupby_size x "count" df with
    | inr out =>
        (inr (Some out),
         mkWorld (<[config := <["y_field" := PyStr "count"]> cfg]> (heap w))
                 (custom_charts w) (screen w))
    | inl e =>
        (inr None,
         mkWorld (heap w) (custom_charts w)
                 (screen w ++ [StError "Data preparation error: " e]))
    end.
Proof.
  intros Hc Hx Hagg Hct Hraw.
  py_unfold. py_run with Hc. rewrite Hx. py_run with Hc. rewrite Hagg.
  rewrite decide_False by discriminate. py_run with Hc. rewrite Hct. py_simpl.
  rewrite bool_decide_false by exact Hraw. py_simpl.
  rewrite decide_True by reflexivity. py_simpl.
  destruct (groupby_size x "count" df) as [e|out]; py_simpl; [reflexivity|].
  rewrite Hc. reflexivity.
Qed.

End Prepare_count.

Section Count_groups.

Variable object_agg : string → list cell → result cell.

(** C1: with [aggregation = count] (stored, or absent and defaulted), a
    chart type other than [scatter] and [histogram], and an [x_field] that
    is a column of the table other than [count], the table is grouped by
    [x_field]: the result has the columns [x_field] and [count] and one row
    per group, the groups being the distinct values of the column that are
    not missing; the count of a group is the number of its rows, and the
    counts add up to the number of rows whose [x_field] value is not
    missing, which is the number of rows of the table when no value is
    missing. *)
Theorem prepare_count_groups
    (df : DataFrame) (config : loc) (w : world) (cfg : dict)
    (x : string) (chart_type : pyval) :
  heap w !! config = Some cfg →
  cfg !! "x_field" = Some (PyStr x) →
  default (PyStr "count") (cfg !! "aggregation") = PyStr "count" →
  cfg !! "chart_type" = Some chart_type →
  chart_type ∉ [PyStr "scatter"; PyStr "histogram"] →
  x ∈ columns df →
  x ≠ "count" →
  ∃ (out : DataFrame) (w' : world),
    prepare_chart_data object_agg df config w = (inr (Some out), w') ∧
    columns out = [x; "count"] ∧
    column x out = group_keys x df ∧
    NoDup (group_keys x df) ∧
    (∀ k, k ∈ group_keys x df ↔ k ≠ CNaN ∧ k ∈ column x df) ∧
    column "count" out =
      map (λ k, CNum (Qc_of_nat (length (group_rows x k df)))) (group_keys x df) ∧
    Qc_sum (numbers_of (column "count" out)) =
      Qc_of_nat (length (filter (λ c, c ≠ CNaN) (column x df))) ∧
    (Forall (λ c, c ≠ CNaN) (column x df) →
     Qc_sum (numbers_of (column "count" out)) = Qc_of_nat (len df)).
Proof.
  intros Hc Hx Hagg Hct Hraw Hcol Hne.
  rewrite (prepare_count_run object_agg df config w cfg (PyStr x) chart_type
             Hc Hx Hagg Hct Hraw).
  unfold groupby_size.
  rewrite decide_True by exact Hcol. rewrite decide_False by exact Hne.
  destruct (groupby_size_columns x "count" df Hne) as [Hkeys Hcounts].
  eexists _, _. split; [reflexivity|].
  split; [reflexivity|].
  split; [exact Hkeys|].
  split; [apply group_keys_NoDup|].
  split; [apply group_keys_spec|].
  split; [exact Hcounts|].
  assert (Hsum :
    Qc_sum (numbers_of (map (λ k, CNum (Qc_of_nat (length (group_rows x k df))))
                            (group_keys x df))) =
      Qc_of_nat (length (filter (λ c, c ≠ CNaN) (column x df)))).
  { rewrite (Qc_sum_counts (λ k, length (group_rows x k df))).
    f_equal. rewrite <- grouped_rows_length.
    apply (occurrences_sum (cell_at x)), group_keys_NoDup. }
  rewrite Hcounts.
  split; [exact Hsum|].
  intros Hall. rewrite Hsum. f_equal.
  unfold len, column. rewrite <- (length_map (cell_at x) (rows df)). f_equal.
  fold (column x df). clear -Hall.
  induction (column x df) as [|c l IH]; [reflexivity|].
  inversion Hall as [|c' l' Hc Hl]; subst.
  rewrite filter_cons, decide_True by exact Hc. f_equal. apply IH, Hl.
Qed.

End Count_groups.

Lemma prepare_count_groups_witness :
  ∃ (out : DataFrame) (w' : world),
    prepare_chart_data no_object_agg Sample.table 0
      (Sample.session (Sample.chart "bar" "aircraft_category" (PyStr "fatalities_num") "count"))
      = (inr (Some out), w') ∧
    columns out = ["aircraft_category"; "count"] ∧
    column "aircraft_category" out = group_keys "aircraft_category" Sample.table ∧
    NoDup (group_keys "aircraft_category" Sample.table) ∧
    (∀ k, k ∈ group_keys "aircraft_category" Sample.table ↔
          k ≠ CNaN ∧ k ∈ column "aircraft_category" Sample.table) ∧
    column "count" out =
      map (λ k, CNum (Qc_of_nat (length (group_rows "aircraft_category" k Sample.table))))
          (group_keys "aircraft_category" Sample.table) ∧
    Qc_sum (numbers_of (column "count" out)) =
      Qc_of_nat (length (filter (λ c, c ≠ CNaN) (column "aircraft_category" Sample.table))) ∧
    (Forall (λ c, c ≠ CNaN) (column "aircraft_category" Sample.table) →
     Qc_sum (numbers_of (column "count" out)) = Qc_of_nat (len Sample.table)).
Proof.
  apply (prepare_count_groups no_object_agg Sample.table 0 _
           (Sample.chart "bar" "aircraft_category" (PyStr "fatalities_num") "count")
           "aircraft_category" (PyStr "bar")).
  - reflexivity.
  - reflexivity.
  - reflexivity.
  - reflexivity.
  - intros H. vm_compute in H. apply elem_of_cons in H as [H|H]; [discriminate|].
    apply elem_of_cons in H as [H|H]; [discriminate|]. apply elem_of_nil in H. exact H.
  - apply list_elem_of_here.
  - discriminate.
Defined.

(** The table of the examples, counted by aircraft category. *)
Example count_by_aircraft_category :
  ∃ w',
    prepare_chart_data no_object_agg Sample.table 0
      (Sample.session (Sample.chart "bar" "aircraft_category" (PyStr "fatalities_num") "count"))
    = (inr (Some (mkDF ["aircraft_category"; "count"]
                    [ {[ "aircraft_category" := CStr "ATR 72-600"; "count" := CNum (Qc_of_nat 2) ]};
                      {[ "aircraft_category" := CStr "Dash 8-400"; "count" := CNum (Qc_of_nat 1) ]} ])),
       w').
Proof. eexists. vm_compute. reflexivity. Qed.

(** C1, as stated, fails on a table with a record whose [x_field] value is
    missing: the record is in no group, and the counts add up to 0 while the
    table has one row. *)
Lemma count_sum_misses_rows_without_key :
  ∃ (out : DataFrame) (w' : world),
    prepare_chart_data no_object_agg Sample.no_operator 0
      (Sample.session (Sample.chart "bar" "operator" (PyStr "fatalities_num") "count"))
      = (inr (Some out), w') ∧
    rows out = [] ∧
    len Sample.no_operator = 1%nat ∧
    Qc_sum (numbers_of (column "count" out)) ≠ Qc_of_nat (len Sample.no_operator).
Proof.
  eexists _, _. split; [vm_compute; reflexivity|].
  split; [reflexivity|]. split; [reflexivity|].
  intros H. apply (f_equal this) in H. vm_compute in H. discriminate H.
Qed.

(** ** Computations that only read the store *)

Section Reads_only.

Context {A B : Type}.

Lemma reads_only_ret (a : A) : reads_only (mret a : py A).
Proof. intros w. split; reflexivity. Qed.

Lemma reads_only_raise (e : exn) : reads_only (raise e : py A).
Proof. intros w. split; reflexivity. Qed.

Lemma reads_only_lift (r : result A) : reads_only (lift r).
Proof. intros w. split; reflexivity. Qed.

Lemma reads_only_bind (m : py A) (f : A → py B) :
  reads_only m → (∀ a, reads_only (f a)) → reads_only (m ≫= f).
Proof.
  intros Hm Hf w. unfold mbind, py_bind.
  destruct (Hm w) as [Hh Hc]. destruct (m w) as [[e|a] w1]; simpl in *.
  - split; assumption.
  - destruct (Hf a w1) as [Hh' Hc']. rewrite Hh', Hc'. split; assumption.
Qed.

Lemma reads_only_try_except (m : py A) (handler : exn → py A) :
  reads_only m → (∀ e, reads_only (handler e)) → reads_only (try_except m handler).
Proof.
  intros Hm Hf w. unfold try_except.
  destruct (Hm w) as [Hh Hc]. destruct (m w) as [[e|a] w1]; simpl in *.
  - destruct (Hf e w1) as [Hh' Hc']. rewrite Hh', Hc'. split; assumption.
  - split; assumption.
Qed.

End Reads_only.

Lemma reads_only_st_show (m : message) : reads_only (st_show m).
Proof. intros w. split; reflexivity. Qed.

Lemma reads_only_deref (c : loc) : reads_only (deref c).
Proof. intros w. unfold deref. destruct (heap w !! c); split; reflexivity. Qed.

Lemma reads_only_getitem (c : loc) (k : string) : reads_only (getitem c k).
Proof.
  apply reads_only_bind; [apply reads_only_deref|].
  intros d. destruct (d !! k); [apply reads_only_ret | apply reads_only_raise].
Qed.

Lemma reads_only_get (c : loc) (k : string) : reads_only (get c k).
Proof.
  apply reads_only_bind; [apply reads_only_deref | intros d; apply reads_only_ret].
Qed.

Lemma reads_only_get_default (c : loc) (k : string) (v : pyval) :
  reads_only (get_default c k v).
Proof.
  apply reads_only_bind; [apply reads_only_deref | intros d; apply reads_only_ret].
Qed.

Ltac reads_only_step :=
  first
    [ apply reads_only_ret | apply reads_only_raise | apply reads_only_lift
    | apply reads_only_st_show | apply reads_only_getitem
    | apply reads_only_get | apply reads_only_get_default
    | apply reads_only_try_except; [|intros ?]
    | apply reads_only_bind; [|intros ?]
    | match goal with
      | |- reads_only (if ?b then _ else _) => destruct b
      | |- reads_only (match ?x with _ => _ end) => destruct x
      end ].

(** [generate_chart] updates no stored object. *)
Lemma generate_chart_reads_only (df : option DataFrame) (config : loc) :
  reads_only (generate_chart df config).
Proof. unfold generate_chart. repeat reads_only_step. Qed.

(** ** The configuration is updated in place *)

Section Config_update.

Variable object_agg : string → list cell → result cell.

(** C9: with [aggregation = count] and a chart type other than [scatter] and
    [histogram] (and an [x_field] that can be grouped by),
    [prepare_chart_data] stores ['count'] under [y_field] in the very object
    it is given. In [render_custom_charts] the stored configuration keeps
    its entries only because the call is made on a copy: after the loop body
    the store holds the untouched configuration and one new object, the
    updated copy. *)
Theorem prepare_count_updates_config
    (df : DataFrame) (config : loc) (w : world) (cfg : dict)
    (x : string) (chart_type : pyval) :
  heap w !! config = Some cfg →
  cfg !! "x_field" = Some (PyStr x) →
  default (PyStr "count") (cfg !! "aggregation") = PyStr "count" →
  cfg !! "chart_type" = Some chart_type →
  chart_type ∉ [PyStr "scatter"; PyStr "histogram"] →
  x ∈ columns df →
  x ≠ "count" →
  let updated := <["y_field" := PyStr "count"]> cfg in
  (∃ out : DataFrame,
     prepare_chart_data object_agg df config w =
       (inr (Some out),
        mkWorld (<[config := updated]> (heap w)) (custom_charts w) (screen w))) ∧
  (let w' := (render_custom_chart object_agg df config w).2 in
   heap w' = <[fresh_loc (heap w) := updated]> (heap w) ∧
   heap w' !! config = Some cfg).
Proof.
  intros Hc Hx Hagg Hct Hraw Hcol Hne updated.
  set (c' := fresh_loc (heap w)).
  assert (Hfresh : heap w !! c' = None).
  { apply not_elem_of_dom. unfold c', fresh_loc. apply is_fresh. }
  assert (Hc' : c' ≠ config) by (intros ->; congruence).
  split.
  - rewrite (prepare_count_run object_agg df config w cfg (PyStr x) chart_type
               Hc Hx Hagg Hct Hraw).
    unfold groupby_size.
    rewrite decide_True by exact Hcol. rewrite decide_False by exact Hne.
    eexists. reflexivity.
  - assert (Hheap : heap (render_custom_chart object_agg df config w).2 =
                      <[c' := updated]> (heap w)).
    { unfold render_custom_chart.
      cbv beta iota zeta delta [mbind py_bind copy]. rewrite Hc. py_simpl. fold c'.
      rewrite (prepare_count_run object_agg df c' _ cfg (PyStr x) chart_type
                 (lookup_insert_eq _ _ _) Hx Hagg Hct Hraw).
      unfold groupby_size.
      rewrite decide_True by exact Hcol. rewrite decide_False by exact Hne.
      cbn [heap custom_charts screen]. rewrite insert_insert_eq.
      match goal with
      | |- context [decide (0 < len ?o)%nat] => set (out := o)
      end.
      set (w2 := mkWorld _ _ _).
      destruct (decide (0 < len out)%nat) as [Hlen|Hlen]; py_simpl.
      - destruct (generate_chart_reads_only (Some out) config w2) as [Hh _].
        destruct (generate_chart (Some out) config w2) as [[e|[fig|]] w3];
          simpl in *; exact Hh.
      - destruct (reads_only_getitem config "title" w2) as [Hh _].
        destruct (getitem config "title" w2) as [[e|title] w3]; simpl in *; exact Hh. }
    split; [exact Hheap|].
    rewrite Hheap, lookup_insert_ne by exact Hc'. exact Hc.
Qed.

End Config_update.

Lemma prepare_count_updates_config_witness :
  let cfg := Sample.chart "bar" "aircraft_category" (PyStr "fatalities_num") "count" in
  let w := Sample.session cfg in
  let updated := <["y_field" := PyStr "count"]> cfg in
  (∃ out : DataFrame,
     prepare_chart_data no_object_agg Sample.table 0 w =
       (inr (Some out),
        mkWorld (<[0%nat := updated]> (heap w)) (custom_charts w) (screen w))) ∧
  (let w' := (render_custom_chart no_object_agg Sample.table 0 w).2 in
   heap w' = <[fresh_loc (heap w) := updated]> (heap w) ∧
   heap w' !! 0%nat = Some cfg).
Proof.
  intros cfg w updated.
  apply (prepare_count_updates_config no_object_agg Sample.table 0 w cfg
           "aircraft_category" (PyStr "bar")).
  - reflexivity.
  - reflexivity.
  - reflexivity.
  - reflexivity.
  - intros H. apply elem_of_cons in H as [H|H]; [discriminate|].
    apply elem_of_cons in H as [H|H]; [discriminate|]. apply elem_of_nil in H. exact H.
  - apply list_elem_of_here.
  - discriminate.
Defined.

(** ** [prepare_chart_data] is a function of the table and the configuration *)

Ltac destruct_innermost x :=
  lazymatch x with
  | context [match ?y with _ => _ end] => destruct_innermost y
  | _ => destruct x eqn:?
  end.

Ltac py_cases H1 H2 :=
  repeat (py_simpl; cbn [heap custom_charts screen fst snd];
          rewrite ?H1, ?H2;
          lazymatch goal with
          | |- context [match ?x with _ => _ end] => destruct_innermost x
          | _ => idtac
          end).

Section Determinism.

Variable object_agg : string → list cell → result cell.

Lemma prepare_result_of_config
    (df : DataFrame) (cfg : dict) (c1 c2 : loc) (w1 w2 : world) :
  heap w1 !! c1 = Some cfg →
  heap w2 !! c2 = Some cfg →
  (prepare_chart_data object_agg df c1 w1).1 =
  (prepare_chart_data object_agg df c2 w2).1.
Proof.
  intros H1 H2. py_unfold. py_cases H1 H2; reflexivity.
Qed.

End Determinism.

Ltac py_rerun Hc :=
  repeat (cbv beta iota zeta delta [heap custom_charts screen fst snd];
          rewrite ?Hc, ?lookup_insert_eq, ?insert_insert_eq;
          repeat (rewrite lookup_insert_ne by discriminate);
          repeat match goal with
                 | H : ?x = _ |- context [match ?x with _ => _ end] => rewrite H
                 end;
          lazymatch goal with
          | |- context [match ?x with _ => _ end] => destruct_innermost x
          | _ => idtac
          end).

Section Rerun.

Variable object_agg : string → list cell → result cell.

Lemma prepare_rerun (df : DataFrame) (c : loc) (w : world) :
  let first := prepare_chart_data object_agg df c w in
  let second := prepare_chart_data object_agg df c first.2 in
  second.1 = first.1 ∧
  heap second.2 = heap first.2 ∧
  custom_charts second.2 = custom_charts first.2.
Proof.
  intros first second. subst first second. destruct w as [h cc s]. cbn [heap].
  destruct (h !! c) as [cfg|] eqn:Hc.
  - py_unfold. py_rerun Hc. all: try (repeat split; reflexivity). all: try congruence.
    all: simplify_map_eq; try congruence.
  - py_unfold. py_rerun Hc. all: repeat split; reflexivity.
Qed.

(** C7: the table [prepare_chart_data] returns is determined by the table
    and the entries of the configuration it is given: it is the same in any
    two states of the store and of the page, under any two references; and a
    second run on the same objects, in the state the first run left, returns
    the same table again and leaves the store as it found it. *)
Theorem prepare_chart_data_deterministic (df : DataFrame) :
  (∀ (cfg : dict) (c1 c2 : loc) (h1 h2 : gmap loc dict)
     (cc1 cc2 : list loc) (s1 s2 : list message),
     (prepare_chart_data object_agg df c1 (mkWorld (<[c1 := cfg]> h1) cc1 s1)).1 =
     (prepare_chart_data object_agg df c2 (mkWorld (<[c2 := cfg]> h2) cc2 s2)).1) ∧
  (∀ (c : loc) (w : world),
     let first := prepare_chart_data object_agg df c w in
     let second := prepare_chart_data object_agg df c first.2 in
     second.1 = first.1 ∧
     heap second.2 = heap first.2 ∧
     custom_charts second.2 = custom_charts first.2).
Proof.
  split.
  - intros cfg c1 c2 h1 h2 cc1 cc2 s1 s2.
    apply (prepare_result_of_config object_agg df cfg); apply lookup_insert_eq.
  - intros c w. apply prepare_rerun.
Qed.

End Rerun.

(** ** The chart builder *)

Lemma selectbox_elem (options : list string) (choice : nat) :
  options ≠ [] → ∃ o, selectbox options choice = PyStr o ∧ o ∈ options.
Proof.
  intros Hne. unfold selectbox.
  destruct (options !! choice) as [o|] eqn:Ho.
  - exists o. split; [reflexivity|]. apply list_elem_of_lookup. eauto.
  - destruct options as [|o rest]; [contradiction|].
    exists o. split; [reflexivity | apply list_elem_of_here].
Qed.

Ltac enumerate H :=
  repeat (apply elem_of_cons in H as [H|H]; [try subst|]);
  [..|apply elem_of_nil in H; destruct H].

Lemma describe_registry (ct : string) :
  ct ∈ map fst CHART_TYPES → ∃ d, describe ct = inr d ∧ (ct, d) ∈ CHART_TYPES.
Proof.
  intros H. simpl in H. enumerate H;
    (eexists; split; [vm_compute; reflexivity|];
     unfold CHART_TYPES; repeat first [apply list_elem_of_here | apply list_elem_of_further]).
Qed.

(** The entries of the configuration the builder stores. *)
Lemma render_chart_builder_stores
    (df : DataFrame) (is_enhanced : bool) (ui : builder_widgets) (w : world) :
  w_add_chart ui = true →
  ∃ (ct : string) (descr : ChartFamilyDescriptor) (x color orientation : pyval),
    (ct, descr) ∈ CHART_TYPES ∧
    let y := if needs_y descr
             then selectbox (get_numeric_fields df is_enhanced) (w_y_field ui)
             else PyNone in
    let aggregation :=
      if bool_decide (x ∈ map PyStr (get_categorical_fields df is_enhanced)) && truthy y
      then selectbox AGGREGATIONS (w_aggregation ui)
      else if decide (PyStr ct = PyStr "histogram") then PyStr "none"
      else PyStr "count" in
    let c := fresh_loc (heap w) in
    let cfg : dict :=
      list_to_map
        [ ("id", PyStr ("chart_" ++ w_now ui));
          ("title", PyStr (w_title ui));
          ("chart_type", PyStr ct);
          ("x_field", x);
          ("y_field", y);
          ("aggregation", aggregation);
          ("color_field", color);
          ("orientation", orientation) ] in
    render_chart_builder df is_enhanced ui w =
      (inr (Some c),
       mkWorld (<[c := cfg]> (heap w)) (custom_charts w ++ [c])
               (screen w ++ [StSuccess "✓ Chart added successfully!"])).
Proof.
  intros Hadd.
  destruct (selectbox_elem (map fst CHART_TYPES) (w_chart_type ui)) as (ct & Hsel & Hct);
    [discriminate|].
  destruct (describe_registry ct Hct) as (descr & Hdescr & Hin).
  exists ct, descr. do 3 eexists. split; [exact Hin|].
  unfold render_chart_builder. rewrite Hsel. cbn [py_str].
  cbv beta iota zeta delta [mbind py_bind lift]. rewrite Hdescr, Hadd.
  reflexivity.
Qed.

(** ** The call made by [generate_chart] *)

Ltac py_go Hc :=
  py_simpl;
  repeat (first [ rewrite Hc
                | match goal with
                  | H : ?m !! ?k = _ |- context [?m !! ?k] => rewrite H
                  end ];
          py_simpl).

(** Case analysis on an optional entry of the configuration that is tested
    for truth before it is read. *)
Ltac py_entry cfg k Hc :=
  destruct (cfg !! k) as [[|?]|] eqn:?;
  cbv beta iota zeta delta [from_option id truthy negb];
  try (match goal with
       | |- context [String.eqb ?s ""] => destruct (String.eqb s "")
       end);
  py_go Hc.

Lemma generate_chart_call (df : DataFrame) (config : loc) (w : world) (cfg : dict) :
  rows df ≠ [] →
  heap w !! config = Some cfg →
  generate_chart (Some df) config w =
    chart_outcome w ('(px_func, params) ← chart_call cfg; px_call px_func df params).
Proof.
  intros Hrows Hc. unfold generate_chart, chart_call.
  rewrite decide_False by (unfold len; destruct (rows df); [contradiction|discriminate]).
  cbv beta iota zeta delta
    [try_except mbind py_bind mret py_ret getitem get get_default deref lift raise
     st_show result_bind result_ret lookup_item chart_outcome].
  py_go Hc.
  destruct (cfg !! "chart_type") as [ct|]; py_go Hc; [|reflexivity].
  destruct (px_getattr ct) as [e|f]; py_go Hc; [reflexivity|].
  destruct (cfg !! "title") as [title|]; py_go Hc; [|reflexivity].
  destruct (bool_decide (ct ∈ map PyStr ["pie"; "sunburst"; "treemap"])); py_go Hc.
  - destruct (cfg !! "x_field") as [x|] eqn:Hx; py_go Hc; [|reflexivity].
    destruct (bool_decide (ct ∈ map PyStr ["sunburst"; "treemap"])); py_go Hc;
      py_entry cfg "color_field" Hc; py_entry cfg "orientation" Hc;
      match goal with |- context [px_call ?a ?b ?c] => destruct (px_call a b c) end;
      reflexivity.
  - destruct (cfg !! "x_field") as [x|] eqn:Hx; py_go Hc; [|reflexivity].
    py_entry cfg "y_field" Hc;
      py_entry cfg "color_field" Hc; py_entry cfg "orientation" Hc;
      match goal with |- context [px_call ?a ?b ?c] => destruct (px_call a b c) end;
      reflexivity.
Qed.

(** ** The arguments of the label/value charts *)

Lemma label_value_family (chart_type : string) :
  chart_type ∈ ["pie"; "sunburst"; "treemap"] →
  px_getattr (PyStr chart_type) = inr chart_type ∧
  bool_decide (PyStr chart_type ∈ map PyStr ["pie"; "sunburst"; "treemap"]) = true ∧
  bool_decide (PyStr chart_type ∈ map PyStr ["sunburst"; "treemap"]) =
    (if decide (chart_type = "pie") then false else true).
Proof. intros H. enumerate H; vm_compute; auto. Qed.

Lemma px_call_inr (f : string) (df : DataFrame) (params : gmap string param) (fig : Figure) :
  px_call f df params = inr fig → fig = mkFig f df params.
Proof.
  unfold px_call. repeat case_decide; intros [= <-]. reflexivity.
Qed.

Lemma generate_chart_empty (cols : list string) (config : loc) (w : world) :
  generate_chart (Some (mkDF cols [])) config w =
    (inr None,
     mkWorld (heap w) (custom_charts w)
             (screen w ++ [StWarning "No data available for this chart configuration."])).
Proof. reflexivity. Qed.

(** The arguments of a figure [generate_chart] builds from a [pie],
    [sunburst] or [treemap] configuration: the figure is of that type over
    the given table, which has rows; its [values] is the [y_field] entry as
    stored (['count'] only when the configuration has no such entry), and it
    has no [x] and no [y]; for [pie] its [names] is the [x_field] and it has
    no [path]; for [sunburst] and [treemap] its [path] is the one-element
    list of the [x_field] and it has no [names]. *)
Lemma generate_chart_label_value
    (df : DataFrame) (config : loc) (w w' : world) (cfg : dict)
    (chart_type : string) (fig : Figure) :
  heap w !! config = Some cfg →
  cfg !! "chart_type" = Some (PyStr chart_type) →
  chart_type ∈ ["pie"; "sunburst"; "treemap"] →
  generate_chart (Some df) config w = (inr (Some fig), w') →
  rows df ≠ [] ∧
  fig_type fig = chart_type ∧
  fig_data fig = df ∧
  fig_params fig !! "values" =
    Some (PVal (default (PyStr "count") (cfg !! "y_field"))) ∧
  fig_params fig !! "x" = None ∧
  fig_params fig !! "y" = None ∧
  ∃ x_field, cfg !! "x_field" = Some x_field ∧
    if decide (chart_type = "pie")
    then fig_params fig !! "names" = Some (PVal x_field) ∧
         fig_params fig !! "path" = None
    else fig_params fig !! "path" = Some (PPath [x_field]) ∧
         fig_params fig !! "names" = None.
Proof.
  intros Hc Hct Hfam Hgen.
  assert (Hrows : rows df ≠ []).
  { intros Hnil. destruct df as [cols rs]. simpl in Hnil. subst rs.
    rewrite generate_chart_empty in Hgen. discriminate Hgen. }
  split; [exact Hrows|].
  rewrite (generate_chart_call df config w cfg Hrows Hc) in Hgen.
  destruct (label_value_family chart_type Hfam) as (Hpx & Hfamily & Hhier).
  unfold chart_call, lookup_item in Hgen. rewrite Hct in Hgen.
  cbv beta iota zeta delta [mbind mret result_bind result_ret] in Hgen.
  rewrite Hpx, Hfamily, Hhier in Hgen.
  destruct (cfg !! "title") as [title|]; [|discriminate Hgen].
  destruct (cfg !! "x_field") as [x|]; [|discriminate Hgen].
  cbv beta iota zeta in Hgen.
  destruct (decide (chart_type = "pie")) as [Hpie|Hpie];
    cbv beta iota zeta in Hgen;
    destruct (truthy (default PyNone (cfg !! "color_field")));
    destruct (truthy (default PyNone (cfg !! "orientation")));
    (match type of Hgen with
     | chart_outcome _ ?r = _ => destruct r as [e|fig'] eqn:Hcall
     end; [discriminate Hgen|]);
    injection Hgen as <- <-;
    apply px_call_inr in Hcall; subst fig'; cbn [fig_type fig_data fig_params];
    (do 5 (split; [by simplify_map_eq|]));
    (exists x; split; [reflexivity|]; split; by simplify_map_eq).
Qed.

(** The call itself, for a configuration without colour and orientation:
    whatever the table, [generate_chart] passes the label/value arguments
    and returns what the Plotly Express function makes of them. *)
Lemma generate_chart_label_value_call
    (df : DataFrame) (config : loc) (w : world) (cfg : dict)
    (chart_type : string) (title x_field : pyval) :
  rows df ≠ [] →
  heap w !! config = Some cfg →
  cfg !! "chart_type" = Some (PyStr chart_type) →
  chart_type ∈ ["pie"; "sunburst"; "treemap"] →
  cfg !! "title" = Some title →
  cfg !! "x_field" = Some x_field →
  cfg !! "color_field" = Some PyNone →
  cfg !! "orientation" = Some PyNone →
  generate_chart (Some df) config w =
    chart_outcome w
      (px_call chart_type df
         (let values := PVal (default (PyStr "count") (cfg !! "y_field")) in
          if decide (chart_type = "pie")
          then <["names" := PVal x_field]>
                 (<["values" := values]> {[ "title" := PVal title ]})
          else delete "names"
                 (<["path" := PPath [x_field]]>
                    (<["names" := PVal x_field]>
                       (<["values" := values]> {[ "title" := PVal title ]}))))).
Proof.
  intros Hrows Hc Hct Hfam Htitle Hx Hcolor Horient.
  rewrite (generate_chart_call df config w cfg Hrows Hc).
  destruct (label_value_family chart_type Hfam) as (Hpx & Hfamily & Hhier).
  unfold chart_call, lookup_item. rewrite Hct, Htitle, Hx, Hcolor, Horient.
  cbv beta iota zeta delta [mbind mret result_bind result_ret].
  rewrite Hpx, Hfamily, Hhier.
  destruct (decide (chart_type = "pie")); reflexivity.
Qed.


(** ** No validation of [y_field] *)

Lemma describe_inv (ct : string) (d : ChartFamilyDescriptor) :
  describe ct = inr d → (ct, d) ∈ CHART_TYPES.
Proof.
  unfold describe.
  destruct (list_find (λ e, e.1 = ct) CHART_TYPES) as [[i [s d']]|] eqn:Hfind;
    [|discriminate].
  intros [= <-]. apply list_find_Some in Hfind as (Hi & Hs & _).
  simpl in Hs. subst s. apply list_elem_of_lookup. eauto.
Qed.

Lemma px_call_ok (f : string) (df : DataFrame) (params : gmap string param) :
  map_Forall (λ k _, k ∈ px_keywords f) params →
  map_Forall (column_ref_ok df) params →
  leaves_ok f df params →
  orientation_ok params →
  px_call f df params = inr (mkFig f df params).
Proof.
  intros Hk Hr Hl Ho. unfold px_call.
  rewrite decide_True by exact Hk. rewrite decide_True by exact Hr.
  rewrite decide_True by exact Hl. rewrite decide_True by exact Ho. reflexivity.
Qed.

Ltac map_Forall_entries :=
  repeat match goal with
         | |- map_Forall _ (delete _ _) => apply map_Forall_delete
         | |- map_Forall _ (<[_ := _]> _) => apply map_Forall_insert_2
         | |- map_Forall _ {[_ := _]} => apply map_Forall_singleton
         end.

Ltac keyword :=
  match goal with
  | |- ?P => apply (bool_decide_unpack P); vm_compute; exact I
  end.

(** A bar chart whose [y_field] is stored as [None], with no colour and no
    orientation, is generated all the same, with [x] alone. *)
Lemma generate_chart_bar_without_y
    (df : DataFrame) (config : loc) (w : world) (cfg : dict) (x : string) (title : pyval) :
  rows df ≠ [] →
  heap w !! config = Some cfg →
  cfg !! "chart_type" = Some (PyStr "bar") →
  cfg !! "y_field" = Some PyNone →
  cfg !! "x_field" = Some (PyStr x) →
  x ∈ columns df →
  cfg !! "title" = Some title →
  cfg !! "color_field" = Some PyNone →
  cfg !! "orientation" = Some PyNone →
  generate_chart (Some df) config w =
    (inr (Some (mkFig "bar" df (<["x" := PVal (PyStr x)]> {[ "title" := PVal title ]}))), w).
Proof.
  intros Hrows Hc Hct Hy Hx Hcol Htitle Hcolor Horient.
  rewrite (generate_chart_call df config w cfg Hrows Hc).
  unfold chart_call, lookup_item.
  rewrite Hct, Hy, Hx, Htitle, Hcolor, Horient.
  cbv beta iota zeta delta [mbind mret result_bind result_ret].
  change (px_getattr (PyStr "bar")) with (inr "bar" : result string).
  change (bool_decide (PyStr "bar" ∈ map PyStr ["pie"; "sunburst"; "treemap"])) with false.
  cbv beta iota zeta delta [from_option id truthy default].
  rewrite px_call_ok; [reflexivity| | | |].
  - map_Forall_entries; keyword.
  - map_Forall_entries; [right; exact Hcol | left; keyword].
  - intros Hf. enumerate Hf; discriminate.
  - unfold orientation_ok. by simplify_map_eq.
Qed.

(** What the builder guarantees about the configuration it stores. *)
Lemma render_chart_builder_config
    (df : DataFrame) (is_enhanced : bool) (ui : builder_widgets) (w : world) :
  w_add_chart ui = true →
  ∃ (c : loc) (w' : world) (cfg : dict) (ct : string) (descr : ChartFamilyDescriptor),
    render_chart_builder df is_enhanced ui w = (inr (Some c), w') ∧
    heap w' !! c = Some cfg ∧
    custom_charts w' = (custom_charts w ++ [c])%list ∧
    cfg !! "chart_type" = Some (PyStr ct) ∧
    describe ct = inr descr ∧
    (if needs_y descr
     then ∃ y, cfg !! "y_field" = Some (PyStr y) ∧ y ∈ get_numeric_fields df is_enhanced
     else cfg !! "y_field" = Some PyNone) ∧
    (cfg !! "aggregation" = Some (PyStr "none") ↔ ct = "histogram").
Proof.
  intros Hadd.
  destruct (render_chart_builder_stores df is_enhanced ui w Hadd)
    as (ct & descr & x & color & orientation & Hin & Hrun).
  cbv zeta in Hrun.
  destruct (selectbox_elem (get_numeric_fields df is_enhanced) (w_y_field ui))
    as (y & Hy & Hynum); [discriminate|].
  destruct (selectbox_elem AGGREGATIONS (w_aggregation ui)) as (a & Ha & Hagg);
    [discriminate|].
  rewrite Hy, Ha in Hrun.
  eexists _, _, _, ct, descr. split; [exact Hrun|].
  cbn [heap custom_charts].
  split; [apply lookup_insert_eq|].
  split; [reflexivity|].
  split; [reflexivity|].
  assert (Hnone : a ≠ "none").
  { intros ->. unfold AGGREGATIONS in Hagg. enumerate Hagg; discriminate. }
  enumerate Hin; injection Hin as Hs Hd; subst ct descr; cbn [needs_y].
  all: split; [vm_compute; reflexivity|].
  all: split; [first [reflexivity | exists y; split; [reflexivity | exact Hynum]]|].
  all: cbn [truthy]; rewrite ?andb_false_r; cbv iota.
  all: try match goal with
           | |- context [bool_decide ?P && ?t] => destruct (bool_decide P && t)
           end.
  all: repeat case_decide; try discriminate.
  all: match goal with
       | |- context [list_to_map ?l !! "aggregation"] =>
           match l with
           | context [("aggregation", ?v)] =>
               change (list_to_map l !! "aggregation") with (Some v)
           end
       end.
  all: split; intros E; first [discriminate E | congruence | reflexivity].
Qed.

(** C2, as stated, fails: nothing checks that a chart whose type needs a y
    field has one. A bar chart stored with [y_field = None] over the sample
    table is generated, with [x] alone. *)
Lemma chart_generated_without_y_field :
  describe "bar" = inr (mkDescr "Bar Chart" true true false false None false) ∧
  Sample.bar_without_y !! "y_field" = Some PyNone ∧
  generate_chart (Some Sample.table) 0 (Sample.session Sample.bar_without_y) =
    (inr (Some Sample.bar_figure), Sample.session Sample.bar_without_y).
Proof.
  split; [reflexivity|]. split; [reflexivity|]. vm_compute. reflexivity.
Qed.

(** C2: the chart builder is what provides the y field: for a chart type
    whose registry entry needs one, the configuration it stores always has a
    [y_field] among the numeric fields (and [None] for the other type,
    [histogram]). Nothing downstream validates it: given a bar configuration
    whose [y_field] is [None] (a table with at least one row, [x_field] one
    of its columns, no colour and no orientation), [generate_chart] still
    builds the figure, with the title and [x] alone. *)
Theorem y_field_set_by_builder_not_validated :
  (∀ (df : DataFrame) (is_enhanced : bool) (ui : builder_widgets) (w : world),
     w_add_chart ui = true →
     ∃ (c : loc) (w' : world) (cfg : dict) (ct : string) (descr : ChartFamilyDescriptor),
       render_chart_builder df is_enhanced ui w = (inr (Some c), w') ∧
       heap w' !! c = Some cfg ∧
       cfg !! "chart_type" = Some (PyStr ct) ∧
       describe ct = inr descr ∧
       (if needs_y descr
        then ∃ y, cfg !! "y_field" = Some (PyStr y) ∧
                  y ∈ get_numeric_fields df is_enhanced
        else cfg !! "y_field" = Some PyNone)) ∧
  (∀ (df : DataFrame) (config : loc) (w : world) (cfg : dict)
     (x : string) (title : pyval),
     rows df ≠ [] →
     heap w !! config = Some cfg →
     cfg !! "chart_type" = Some (PyStr "bar") →
     cfg !! "y_field" = Some PyNone →
     cfg !! "x_field" = Some (PyStr x) →
     x ∈ columns df →
     cfg !! "title" = Some title →
     cfg !! "color_field" = Some PyNone →
     cfg !! "orientation" = Some PyNone →
     generate_chart (Some df) config w =
       (inr (Some (mkFig "bar" df
                     (<["x" := PVal (PyStr x)]> {[ "title" := PVal title ]}))), w)).
Proof.
  split.
  - intros df is_enhanced ui w Hadd.
    destruct (render_chart_builder_config df is_enhanced ui w Hadd)
      as (c & w' & cfg & ct & descr & Hrun & Hcfg & _ & Hct & Hdescr & Hy & _).
    exists c, w', cfg, ct, descr. auto.
  - apply generate_chart_bar_without_y.
Qed.

Lemma y_field_set_by_builder_not_validated_witness :
  (∃ (c : loc) (w' : world) (cfg : dict) (ct : string) (descr : ChartFamilyDescriptor),
     render_chart_builder Sample.table false (Sample.widgets 0 1 2)
       (mkWorld ∅ [] []) = (inr (Some c), w') ∧
     heap w' !! c = Some cfg ∧
     cfg !! "chart_type" = Some (PyStr ct) ∧
     describe ct = inr descr ∧
     (if needs_y descr
      then ∃ y, cfg !! "y_field" = Some (PyStr y) ∧
                y ∈ get_numeric_fields Sample.table false
      else cfg !! "y_field" = Some PyNone)) ∧
  generate_chart (Some Sample.table) 0 (Sample.session Sample.bar_without_y) =
    (inr (Some (mkFig "bar" Sample.table
                  (<["x" := PVal (PyStr "aircraft_category")]>
                     {[ "title" := PVal (PyStr "My Custom Chart") ]}))),
     Sample.session Sample.bar_without_y).
Proof.
  destruct y_field_set_by_builder_not_validated as [Hbuilder Hgen].
  split.
  - apply Hbuilder. reflexivity.
  - apply (Hgen Sample.table 0 _ Sample.bar_without_y
             "aircraft_category" (PyStr "My Custom Chart")).
    + discriminate.
    + reflexivity.
    + reflexivity.
    + reflexivity.
    + reflexivity.
    + apply list_elem_of_here.
    + reflexivity.
    + reflexivity.
    + reflexivity.
Defined.

(** ** No validation of [aggregation = none] *)

(** C3, as stated, fails: a sunburst chart stored with [aggregation = none]
    is not rejected. The table is passed on as it is, the figure is built on
    the raw rows and plotted. *)
Lemma sunburst_with_aggregation_none_is_drawn :
  Sample.sunburst_raw !! "chart_type" = Some (PyStr "sunburst") ∧
  Sample.sunburst_raw !! "aggregation" = Some (PyStr "none") ∧
  prepare_chart_data no_object_agg Sample.table 0 (Sample.session Sample.sunburst_raw) =
    (inr (Some Sample.table), Sample.session Sample.sunburst_raw) ∧
  generate_chart (Some Sample.table) 0 (Sample.session Sample.sunburst_raw) =
    (inr (Some Sample.sunburst_figure), Sample.session Sample.sunburst_raw) ∧
  screen (render_custom_chart no_object_agg Sample.table 0
            (Sample.session Sample.sunburst_raw)).2 =
    [StPlot Sample.sunburst_figure].
Proof.
  split; [reflexivity|]. split; [reflexivity|].
  split; [vm_compute; reflexivity|].
  split; vm_compute; reflexivity.
Qed.

Section Aggregation_none.

Variable object_agg : string → list cell → result cell.

(** C3: the chart builder stores [aggregation = none] for histograms and for
    no other chart type. No validation rejects [aggregation = none]
    elsewhere: for every chart type, [prepare_chart_data] on a configuration
    with [aggregation = none] returns the table as it is, shows nothing and
    updates nothing. *)
Theorem aggregation_none_not_validated :
  (∀ (df : DataFrame) (is_enhanced : bool) (ui : builder_widgets) (w : world),
     w_add_chart ui = true →
     ∃ (c : loc) (w' : world) (cfg : dict) (ct : string),
       render_chart_builder df is_enhanced ui w = (inr (Some c), w') ∧
       heap w' !! c = Some cfg ∧
       cfg !! "chart_type" = Some (PyStr ct) ∧
       (cfg !! "aggregation" = Some (PyStr "none") ↔ ct = "histogram")) ∧
  (∀ (df : DataFrame) (config : loc) (w : world) (cfg : dict),
     heap w !! config = Some cfg →
     is_Some (cfg !! "x_field") →
     cfg !! "aggregation" = Some (PyStr "none") →
     prepare_chart_data object_agg df config w = (inr (Some df), w)).
Proof.
  split.
  - intros df is_enhanced ui w Hadd.
    destruct (render_chart_builder_config df is_enhanced ui w Hadd)
      as (c & w' & cfg & ct & descr & Hrun & Hcfg & _ & Hct & _ & _ & Hnone).
    exists c, w', cfg, ct. auto.
  - apply prepare_aggregation_none.
Qed.

End Aggregation_none.

Lemma aggregation_none_not_validated_witness :
  (∃ (c : loc) (w' : world) (cfg : dict) (ct : string),
     render_chart_builder Sample.table false (Sample.widgets 4 1 2)
       (mkWorld ∅ [] []) = (inr (Some c), w') ∧
     heap w' !! c = Some cfg ∧
     cfg !! "chart_type" = Some (PyStr ct) ∧
     (cfg !! "aggregation" = Some (PyStr "none") ↔ ct = "histogram")) ∧
  prepare_chart_data no_object_agg Sample.table 0 (Sample.session Sample.sunburst_raw) =
    (inr (Some Sample.table), Sample.session Sample.sunburst_raw).
Proof.
  destruct (aggregation_none_not_validated no_object_agg) as [Hbuilder Hraw].
  split.
  - apply Hbuilder. reflexivity.
  - apply (Hraw Sample.table 0 _ Sample.sunburst_raw).
    + reflexivity.
    + eexists. reflexivity.
    + reflexivity.
Defined.

(** ** The coercion of fatalities *)

Section Fatalities.

Variable parse_numeric : string → option Qc.
Variable object_agg : string → list cell → result cell.

(** C6: the coercion of a [fatalities] cell never raises and always yields a
    number: for a string, the number it denotes when the parser accepts it,
    and 0 otherwise (so for the empty string, when it denotes no number);
    for a missing cell, 0. On the table of the examples (with a parser that
    reads "0" as 0, "5" as 5 and rejects the empty string) the derived
    column is 0, 5, 0, and the sum of [fatalities_num] by aircraft category
    is 5 for ATR 72-600 and 0 for Dash 8-400. *)
Theorem fatalities_num_total :
  (∀ c : cell, ∃ q : Qc, fatalities_num parse_numeric c = inr (CNum q)) ∧
  (∀ s : string,
     fatalities_num parse_numeric (CStr s) =
       inr (CNum (default (Qc_of_Z 0) (parse_numeric s)))) ∧
  fatalities_num parse_numeric CNaN = inr (CNum (Qc_of_Z 0)) ∧
  (parse_numeric "0" = Some (Qc_of_Z 0) →
   parse_numeric "5" = Some (Qc_of_Z 5) →
   parse_numeric "" = None →
   with_fatalities_num parse_numeric Sample.raw_table = inr Sample.table ∧
   ∃ out : DataFrame,
     prepare_chart_data object_agg Sample.table 0 (Sample.session Sample.fatalities_sum) =
       (inr (Some out), Sample.session Sample.fatalities_sum) ∧
     columns out = ["aircraft_category"; "fatalities_num"] ∧
     column "aircraft_category" out = [CStr "ATR 72-600"; CStr "Dash 8-400"] ∧
     column "fatalities_num" out = [CNum (Qc_of_Z 5); CNum (Qc_of_Z 0)]).
Proof.
  assert (Hstr : ∀ s : string,
     fatalities_num parse_numeric (CStr s) =
       inr (CNum (default (Qc_of_Z 0) (parse_numeric s)))).
  { intros s. unfold fatalities_num, to_numeric.
    destruct (parse_numeric s) as [q|]; reflexivity. }
  split; [|split; [exact Hstr|split; [reflexivity|]]].
  - intros [s|q|].
    + rewrite Hstr. eauto.
    + exists q. reflexivity.
    + exists (Qc_of_Z 0). reflexivity.
  - intros H0 H5 Hempty. split.
    + unfold with_fatalities_num.
      change (getcol "fatalities" Sample.raw_table)
        with (inr [CStr "0"; CStr "5"; CStr ""] : result (list cell)).
      cbn [mbind result_bind mapM]. rewrite !Hstr, H0, H5, Hempty.
      vm_compute. reflexivity.
    + eexists. split; [vm_compute; reflexivity|].
      split; [reflexivity|]. split; [reflexivity|].
      vm_compute.
      apply (f_equal2 cons); [f_equal; apply Qc_is_canon; reflexivity|].
      apply (f_equal2 cons); [f_equal; apply Qc_is_canon; reflexivity|reflexivity].
Qed.

End Fatalities.

Lemma fatalities_num_total_witness :
  with_fatalities_num parse_decimal Sample.raw_table = inr Sample.table ∧
  ∃ out : DataFrame,
    prepare_chart_data no_object_agg Sample.table 0 (Sample.session Sample.fatalities_sum) =
      (inr (Some out), Sample.session Sample.fatalities_sum) ∧
    columns out = ["aircraft_category"; "fatalities_num"] ∧
    column "aircraft_category" out = [CStr "ATR 72-600"; CStr "Dash 8-400"] ∧
    column "fatalities_num" out = [CNum (Qc_of_Z 5); CNum (Qc_of_Z 0)].
Proof.
  apply (fatalities_num_total parse_decimal no_object_agg); reflexivity.
Defined.

(** * Further properties of the pipeline *)

(** ** What [prepare_chart_data] can do to the state *)

Section Prepare_outcome.

Variable object_agg : string → list cell → result cell.

Lemma prepare_outcome_cases
    (df : DataFrame) (c : loc) (h : gmap loc dict) (cc : list loc) (s : list message)
    (r : result (option DataFrame)) (w' : world) :
  prepare_chart_data object_agg df c (mkWorld h cc s) = (r, w') →
  custom_charts w' = cc ∧
  ((∃ e, r = inr None ∧ heap w' = h ∧
         screen w' = (s ++ [StError "Data preparation error: " e])%list) ∨
   (∃ out, r = inr (Some out) ∧ screen w' = s ∧
      (heap w' = h ∨
       ∃ cfg, h !! c = Some cfg ∧
              default (PyStr "count") (cfg !! "aggregation") = PyStr "count" ∧
              heap w' = <[c := <["y_field" := PyStr "count"]> cfg]> h))).
Proof.
  intros Hrun. match goal with |- ?concl => set (G := concl) end. revert Hrun.
  destruct (h !! c) as [cfg|] eqn:Hc; py_unfold; py_rerun Hc.
  all: intros [= Hr Hw]; subst G r w'; cbn [heap custom_charts screen];
    split; [reflexivity|].
  all: first [ left; eexists; repeat split; reflexivity
             | right; eexists; split; [reflexivity|]; split; [reflexivity|];
               first [ left; reflexivity
                     | right; eexists; repeat split; first [reflexivity | eassumption] ] ].
Qed.

End Prepare_outcome.

Section Prepare_never_raises.

Variable object_agg : string → list cell → result cell.

(** X1: [prepare_chart_data] never raises: every exception is caught. It
    returns no table exactly when it has shown one "Data preparation error"
    message, and then no stored object was changed; when it returns a table
    it has shown nothing. The list of charts is never changed. *)
Theorem prepare_chart_data_never_raises (df : DataFrame) (c : loc) (w : world) :
  ∃ (r : option DataFrame) (w' : world),
    prepare_chart_data object_agg df c w = (inr r, w') ∧
    custom_charts w' = custom_charts w ∧
    match r with
    | None =>
        heap w' = heap w ∧
        ∃ e, screen w' = (screen w ++ [StError "Data preparation error: " e])%list
    | Some _ => screen w' = screen w
    end.
Proof.
  destruct w as [h cc s].
  destruct (prepare_chart_data object_agg df c (mkWorld h cc s)) as [r w'] eqn:Hrun.
  destruct (prepare_outcome_cases object_agg df c h cc s r w' Hrun)
    as [Hcc [(e & -> & Hh & Hs)|(out & -> & Hs & _)]].
  - exists None, w'. cbn [heap custom_charts screen]. eauto.
  - exists (Some out), w'. cbn [heap custom_charts screen]. eauto.
Qed.

(** X2: the only object [prepare_chart_data] can change is the
    configuration it is given, and the only entry it can change there is
    [y_field]: every other object of the store, and every other entry of the
    configuration, is as before; no object is added or removed. *)
Theorem prepare_chart_data_frame
    (df : DataFrame) (c : loc) (w : world) (l : loc) (k : string) :
  let w' := (prepare_chart_data object_agg df c w).2 in
  dom (heap w') = dom (heap w) ∧
  (l ≠ c → heap w' !! l = heap w !! l) ∧
  (k ≠ "y_field" → (heap w' !! c) ≫= (.!! k) = (heap w !! c) ≫= (.!! k)).
Proof.
  intros w'. subst w'. destruct w as [h cc s].
  destruct (prepare_chart_data object_agg df c (mkWorld h cc s)) as [r w'] eqn:Hrun.
  destruct (prepare_outcome_cases object_agg df c h cc s r w' Hrun)
    as [_ [(e & _ & Hh & _)|(out & _ & _ & [Hh|(cfg & Hc & _ & Hh)])]];
    cbn [snd heap]; rewrite Hh; try (repeat split; reflexivity).
  split; [|split].
  - rewrite dom_insert_L. apply elem_of_dom_2 in Hc.
    apply subseteq_union_1_L, singleton_subseteq_l, Hc.
  - intros Hl. apply lookup_insert_ne. congruence.
  - intros Hk. rewrite lookup_insert_eq, Hc. cbn [mbind option_bind].
    apply lookup_insert_ne. congruence.
Qed.

End Prepare_never_raises.

Lemma prepare_chart_data_frame_witness :
  let w := Sample.session (Sample.chart "bar" "aircraft_category"
                             (PyStr "fatalities_num") "count") in
  let w' := (prepare_chart_data no_object_agg Sample.table 0 w).2 in
  dom (heap w') = dom (heap w) ∧
  heap w' !! 1%nat = heap w !! 1%nat ∧
  (heap w' !! 0%nat) ≫= (.!! "title") = (heap w !! 0%nat) ≫= (.!! "title").
Proof.
  intros w.
  destruct (prepare_chart_data_frame no_object_agg Sample.table 0 w 1%nat "title")
    as (Hdom & Hother & Hentry).
  split; [exact Hdom|]. split; [apply Hother; discriminate | apply Hentry; discriminate].
Defined.

(** ** [prepare_chart_data] with a statistic *)

Lemma mapM_result_inr {A B : Type} (f : A → result B) (g : A → B) (l : list A) :
  (∀ a, a ∈ l → f a = inr (g a)) → mapM f l = inr (map g l).
Proof.
  induction l as [|a l IH]; intros Hf; [reflexivity|].
  cbn [mapM map]. rewrite (Hf a) by apply list_elem_of_here.
  cbn [mbind result_bind]. rewrite IH; [reflexivity|].
  intros a' Ha'. apply Hf, list_elem_of_further, Ha'.
Qed.

(** The value of a statistic of a numeric column over a list of cells. *)
Lemma numeric_agg_statistic (how : string) (cs : list cell) :
  how ∈ ["sum"; "mean"; "median"; "min"; "max"] →
  ∃ v, numeric_agg how cs = inr v.
Proof.
  intros H. enumerate H; unfold numeric_agg; repeat case_decide; try congruence; eauto.
Qed.

Section Prepare_statistic.

Variable object_agg : string → list cell → result cell.

Lemma prepare_statistic_run
    (df : DataFrame) (config : loc) (w : world) (cfg : dict)
    (x chart_type : pyval) (y how : string) :
  heap w !! config = Some cfg →
  cfg !! "x_field" = Some x →
  cfg !! "y_field" = Some (PyStr y) →
  y ≠ "" →
  cfg !! "aggregation" = Some (PyStr how) →
  how ∈ ["sum"; "mean"; "median"; "min"; "max"] →
  cfg !! "chart_type" = Some chart_type →
  chart_type ∉ [PyStr "scatter"; PyStr "histogram"] →
  prepare_chart_data object_agg df config w =
    match groupby_agg object_agg x y how df with
    | inr out => (inr (Some out), w)
    | inl e =>
        (inr None,
         mkWorld (heap w) (custom_charts w)
                 (screen w ++ [StError "Data preparation error: " e]))
    end.
Proof.
  intros Hc Hx Hy Hne Hagg Hhow Hct Hraw.
  py_unfold. py_run with Hc. rewrite Hx. py_run with Hc. rewrite Hy. py_run with Hc.
  rewrite Hagg. cbn [default from_option id].
  rewrite decide_False by (intros [= ->]; enumerate Hhow; discriminate).
  py_run with Hc. rewrite Hct. py_simpl.
  rewrite bool_decide_false by exact Hraw. py_simpl.
  rewrite decide_False by (intros [= ->]; enumerate Hhow; discriminate).
  assert (Htruthy : truthy (PyStr y) = true).
  { cbn [truthy]. destruct (String.eqb_spec y ""); [contradiction|reflexivity]. }
  rewrite Htruthy.
  rewrite bool_decide_true
    by (apply (elem_of_PyStr how ["sum"; "mean"; "median"; "min"; "max"]), Hhow).
  cbn [andb py_str]. unfold groupby_median.
  destruct (decide (PyStr how = PyStr "median")) as [[= ->]|_]; py_simpl;
    destruct (groupby_agg object_agg x y _ df); reflexivity.
Qed.

End Prepare_statistic.

Lemma grouped_columns (x y : string) (val : cell → cell) (keys : list cell) :
  x ≠ y →
  let out := mkDF [x; y] (map (λ k, ({[ x := k; y := val k ]} : row)) keys) in
  column x out = keys ∧ column y out = map val keys.
Proof.
  intros Hne out. unfold column, out. cbn [rows]. rewrite !map_map. split.
  - rewrite <- (map_id keys) at 2. apply map_ext. intros k.
    unfold cell_at. rewrite lookup_insert_eq. reflexivity.
  - apply map_ext. intros k. unfold cell_at.
    rewrite lookup_insert_ne by exact Hne. rewrite lookup_singleton_eq. reflexivity.
Qed.

Section Statistic_groups.

Variable object_agg : string → list cell → result cell.

(** X3: with an [aggregation] among sum, mean, median, min and max, a
    [y_field] that is set, a chart type other than [scatter] and
    [histogram], and [x_field] and [y_field] two different columns of the
    table, the second one numeric, the preparation succeeds and the table is
    grouped by [x_field]: the result has the two columns [x_field] and
    [y_field] and one row per group, the [x_field] column listing the
    distinct values that are not missing, in sorted order, with one
    [y_field] cell each. Nothing is shown and no object is updated: unlike
    with [count], the configuration keeps its [y_field]. *)
Theorem prepare_statistic_groups
    (df : DataFrame) (config : loc) (w : world) (cfg : dict)
    (x y how : string) (chart_type : pyval) :
  heap w !! config = Some cfg →
  cfg !! "x_field" = Some (PyStr x) →
  cfg !! "y_field" = Some (PyStr y) →
  y ≠ "" →
  cfg !! "aggregation" = Some (PyStr how) →
  how ∈ ["sum"; "mean"; "median"; "min"; "max"] →
  cfg !! "chart_type" = Some chart_type →
  chart_type ∉ [PyStr "scatter"; PyStr "histogram"] →
  x ∈ columns df →
  y ∈ columns df →
  x ≠ y →
  forallb is_num (column y df) = true →
  ∃ out : DataFrame,
    prepare_chart_data object_agg df config w = (inr (Some out), w) ∧
    columns out = [x; y] ∧
    column x out = group_keys x df ∧
    len out = length (group_keys x df) ∧
    Forall (λ r, dom r = {[ x; y ]}) (rows out).
Proof.
  intros Hc Hx Hy Hne Hagg Hhow Hct Hraw Hxcol Hycol Hxy Hnum.
  rewrite (prepare_statistic_run object_agg df config w cfg (PyStr x) chart_type y how
             Hc Hx Hy Hne Hagg Hhow Hct Hraw).
  unfold groupby_agg.
  rewrite decide_True by exact Hxcol. rewrite decide_True by exact Hycol.
  rewrite decide_False by exact Hxy. rewrite Hnum.
  set (val := λ k, match numeric_agg how (map (cell_at y) (group_rows x k df)) with
                   | inr v => v
                   | inl _ => CNaN
                   end).
  assert (Hval : ∀ k, numeric_agg how (map (cell_at y) (group_rows x k df)) = inr (val k)).
  { intros k. unfold val.
    destruct (numeric_agg_statistic how (map (cell_at y) (group_rows x k df)) Hhow)
      as [v ->]. reflexivity. }
  rewrite (mapM_result_inr _ (λ k, ({[ x := k; y := val k ]} : row))).
  2: { intros k _. rewrite Hval. reflexivity. }
  cbn [mbind result_bind mret result_ret].
  destruct (grouped_columns x y val (group_keys x df) Hxy) as [Hkeys _].
  eexists. split; [reflexivity|]. split; [reflexivity|]. split; [exact Hkeys|].
  split; [unfold len; cbn [rows]; apply length_map|].
  cbn [rows]. apply list.Forall_forall. intros r (k & -> & _)%list_elem_of_fmap.
  rewrite dom_insert_L, dom_singleton_L. reflexivity.
Qed.

End Statistic_groups.

Lemma prepare_statistic_groups_witness :
  ∃ out : DataFrame,
    prepare_chart_data no_object_agg Sample.table 0 (Sample.session Sample.fatalities_sum) =
      (inr (Some out), Sample.session Sample.fatalities_sum) ∧
    columns out = ["aircraft_category"; "fatalities_num"] ∧
    column "aircraft_category" out = group_keys "aircraft_category" Sample.table ∧
    len out = length (group_keys "aircraft_category" Sample.table) ∧
    Forall (λ r, dom r = {[ "aircraft_category"; "fatalities_num" ]}) (rows out).
Proof.
  apply (prepare_statistic_groups no_object_agg Sample.table 0 _ Sample.fatalities_sum
           "aircraft_category" "fatalities_num" "sum" (PyStr "bar")).
  - reflexivity.
  - reflexivity.
  - reflexivity.
  - discriminate.
  - reflexivity.
  - apply list_elem_of_here.
  - reflexivity.
  - intros H. enumerate H; discriminate.
  - apply list_elem_of_here.
  - apply list_elem_of_further, list_elem_of_further, list_elem_of_here.
  - discriminate.
  - reflexivity.
Defined.

(** ** The arguments [generate_chart] passes *)

Lemma bool_decide_PyStr (s : string) (l : list string) :
  bool_decide (PyStr s ∈ map PyStr l) = bool_decide (s ∈ l).
Proof. apply bool_decide_ext, elem_of_PyStr. Qed.

(** The call, read back from its result. *)
Lemma chart_call_inv (cfg : dict) (f : string) (params : gmap string param) :
  chart_call cfg = inr (f, params) →
  cfg !! "chart_type" = Some (PyStr f) ∧
  f ∈ px_functions ∧
  ∃ title x : pyval,
    cfg !! "title" = Some title ∧
    cfg !! "x_field" = Some x ∧
    params !! "title" = Some (PVal title) ∧
    params !! "color" =
      (let color := default PyNone (cfg !! "color_field") in
       if truthy color then Some (PVal color) else None) ∧
    params !! "orientation" =
      (let orientation := default PyNone (cfg !! "orientation") in
       if truthy orientation then Some (PVal orientation) else None) ∧
    if bool_decide (f ∈ ["pie"; "sunburst"; "treemap"]) then
      params !! "values" = Some (PVal (default (PyStr "count") (cfg !! "y_field"))) ∧
      params !! "x" = None ∧ params !! "y" = None ∧
      if bool_decide (f ∈ ["sunburst"; "treemap"])
      then params !! "path" = Some (PPath [x]) ∧ params !! "names" = None
      else params !! "names" = Some (PVal x) ∧ params !! "path" = None
    else
      params !! "x" = Some (PVal x) ∧
      params !! "y" =
        (let y := default PyNone (cfg !! "y_field") in
         if truthy y then Some (PVal y) else None) ∧
      params !! "values" = None ∧ params !! "names" = None ∧
      params !! "path" = None.
Proof.
  unfold chart_call, lookup_item.
  destruct (cfg !! "chart_type") as [[|s]|]; cbn [mbind result_bind px_getattr];
    try discriminate.
  destruct (decide (s ∈ px_functions)) as [Hs|]; [|discriminate].
  cbn [mbind result_bind].
  destruct (cfg !! "title") as [title|]; [|discriminate].
  cbn [mbind result_bind mret result_ret].
  rewrite !bool_decide_PyStr.
  destruct (cfg !! "x_field") as [x|];
    [|destruct (bool_decide (s ∈ ["pie"; "sunburst"; "treemap"])); discriminate].
  cbv zeta.
  destruct (bool_decide (s ∈ ["pie"; "sunburst"; "treemap"])) eqn:Hfam;
    [destruct (bool_decide (s ∈ ["sunburst"; "treemap"])) eqn:Hhier
    |destruct (truthy (default PyNone (cfg !! "y_field")))];
    cbn [mbind result_bind mret result_ret];
    destruct (truthy (default PyNone (cfg !! "color_field")));
    destruct (truthy (default PyNone (cfg !! "orientation")));
    intros [= <- <-]; rewrite ?Hfam, ?Hhier;
    (split; [reflexivity|]; split; [exact Hs|]; exists title, x;
     repeat split; by simplify_map_eq).
Qed.

(** Plotly rejects a call one of whose arguments names no column. *)
Lemma px_call_bad_ref (f : string) (df : DataFrame) (params : gmap string param)
    (k : string) (p : param) :
  params !! k = Some p →
  ¬ column_ref_ok df k p →
  ∃ e, px_call f df params = inl e.
Proof.
  intros Hk Hbad. unfold px_call.
  destruct (decide (map_Forall (λ k _, k ∈ px_keywords f) params)); [|eauto].
  rewrite decide_False; [eauto|].
  intros Hall. apply Hbad, (Hall k p Hk).
Qed.

Lemma px_call_inv (f : string) (df : DataFrame) (params : gmap string param) (fig : Figure) :
  px_call f df params = inr fig →
  fig = mkFig f df params ∧
  map_Forall (λ k _, k ∈ px_keywords f) params ∧
  map_Forall (column_ref_ok df) params.
Proof.
  unfold px_call. repeat case_decide; intros [= <-]. auto.
Qed.

(** ** What [generate_chart] returns and shows *)

Lemma generate_chart_dangling (df : DataFrame) (config : loc) (w : world) :
  rows df ≠ [] →
  heap w !! config = None →
  generate_chart (Some df) config w =
    (inr None,
     mkWorld (heap w) (custom_charts w)
             (screen w ++ [StError "Chart generation error: " (TypeError "not a dict")])).
Proof.
  intros Hrows Hc. unfold generate_chart.
  rewrite decide_False by (unfold len; destruct (rows df); [contradiction|discriminate]).
  cbv beta iota zeta delta
    [try_except mbind py_bind mret py_ret getitem get get_default deref lift raise st_show].
  rewrite Hc. reflexivity.
Qed.

(** X5: [generate_chart] never raises and never changes the store or the
    list of charts. When it returns no figure it has shown exactly one
    message, the "No data available" warning or a "Chart generation error";
    when it returns a figure it has shown nothing, and the figure is drawn
    over the very table it was given, which has at least one row, by the
    function that the configuration's [chart_type] names. *)
Theorem generate_chart_never_raises (df : option DataFrame) (config : loc) (w : world) :
  ∃ (r : option Figure) (w' : world),
    generate_chart df config w = (inr r, w') ∧
    heap w' = heap w ∧
    custom_charts w' = custom_charts w ∧
    match r with
    | Some fig =>
        screen w' = screen w ∧
        df = Some (fig_data fig) ∧
        rows (fig_data fig) ≠ [] ∧
        ∃ cfg, heap w !! config = Some cfg ∧
               cfg !! "chart_type" = Some (PyStr (fig_type fig))
    | None =>
        ∃ m, screen w' = (screen w ++ [m])%list ∧
             (m = StWarning "No data available for this chart configuration." ∨
              ∃ e, m = StError "Chart generation error: " e)
    end.
Proof.
  destruct df as [[cols [|r rs]]|].
  - eexists None, _. split; [reflexivity|]. cbn [heap custom_charts screen]. eauto 6.
  - assert (Hrows : rows (mkDF cols (r :: rs)) ≠ []) by discriminate.
    destruct (heap w !! config) as [cfg|] eqn:Hc.
    + rewrite (generate_chart_call _ config w cfg Hrows Hc).
      destruct (chart_call cfg) as [e|[f params]] eqn:Hcall; cbn [mbind result_bind].
      * eexists None, _. split; [reflexivity|]. cbn [heap custom_charts screen]. eauto 8.
      * destruct (px_call f (mkDF cols (r :: rs)) params) as [e|fig] eqn:Hpx.
        -- eexists None, _. split; [reflexivity|]. cbn [heap custom_charts screen]. eauto 8.
        -- apply px_call_inv in Hpx as (-> & _ & _).
           apply chart_call_inv in Hcall as (Hct & Hf & _).
           eexists (Some _), _. split; [reflexivity|].
           cbn [fig_type fig_data]. eauto 10.
    + rewrite (generate_chart_dangling _ config w Hrows Hc).
      eexists None, _. split; [reflexivity|]. cbn [heap custom_charts screen]. eauto 8.
  - eexists None, _. split; [reflexivity|]. cbn [heap custom_charts screen]. eauto 6.
Qed.

(** X6: for the chart types drawn on axes (every type but [pie], [sunburst]
    and [treemap]), a figure [generate_chart] returns has [x] set to the
    [x_field], [y] set to the [y_field] when that is set and absent
    otherwise, [color] and [orientation] set to the configuration's entries
    when they are set and absent otherwise, the configuration's title, and no
    [values], [names] or [path]; the state is as before. *)
Theorem generate_chart_axes
    (df : DataFrame) (config : loc) (w w' : world) (cfg : dict)
    (chart_type : string) (fig : Figure) :
  heap w !! config = Some cfg →
  cfg !! "chart_type" = Some (PyStr chart_type) →
  chart_type ∉ ["pie"; "sunburst"; "treemap"] →
  generate_chart (Some df) config w = (inr (Some fig), w') →
  w' = w ∧
  fig_type fig = chart_type ∧
  fig_data fig = df ∧
  (∃ x, cfg !! "x_field" = Some x ∧ fig_params fig !! "x" = Some (PVal x)) ∧
  (∃ title, cfg !! "title" = Some title ∧ fig_params fig !! "title" = Some (PVal title)) ∧
  fig_params fig !! "y" =
    (let y := default PyNone (cfg !! "y_field") in
     if truthy y then Some (PVal y) else None) ∧
  fig_params fig !! "color" =
    (let color := default PyNone (cfg !! "color_field") in
     if truthy color then Some (PVal color) else None) ∧
  fig_params fig !! "orientation" =
    (let orientation := default PyNone (cfg !! "orientation") in
     if truthy orientation then Some (PVal orientation) else None) ∧
  fig_params fig !! "values" = None ∧
  fig_params fig !! "names" = None ∧
  fig_params fig !! "path" = None.
Proof.
  intros Hc Hct Hfam Hgen.
  assert (Hrows : rows df ≠ []).
  { intros Hnil. destruct df as [cols rs]. simpl in Hnil. subst rs.
    rewrite generate_chart_empty in Hgen. discriminate Hgen. }
  rewrite (generate_chart_call df config w cfg Hrows Hc) in Hgen.
  destruct (chart_call cfg) as [e|[f params]] eqn:Hcall; cbn [mbind result_bind] in Hgen;
    [discriminate Hgen|].
  destruct (px_call f df params) as [e|fig'] eqn:Hpx; [discriminate Hgen|].
  injection Hgen as <- <-.
  apply px_call_inv in Hpx as (-> & _ & _).
  apply chart_call_inv in Hcall
    as (Hct' & _ & title & x & Htitle & Hx & Hptitle & Hcolor & Horient & Hrest).
  rewrite Hct in Hct'. injection Hct' as <-.
  rewrite bool_decide_false in Hrest by exact Hfam.
  destruct Hrest as (Hpx & Hpy & Hvalues & Hnames & Hpath).
  cbn [fig_type fig_data fig_params]. eauto 15.
Qed.

Lemma generate_chart_axes_witness :
  Sample.session Sample.bar_without_y = Sample.session Sample.bar_without_y ∧
  fig_type Sample.bar_figure = "bar" ∧
  fig_data Sample.bar_figure = Sample.table ∧
  (∃ x, Sample.bar_without_y !! "x_field" = Some x ∧
        fig_params Sample.bar_figure !! "x" = Some (PVal x)) ∧
  (∃ title, Sample.bar_without_y !! "title" = Some title ∧
            fig_params Sample.bar_figure !! "title" = Some (PVal title)) ∧
  fig_params Sample.bar_figure !! "y" =
    (let y := default PyNone (Sample.bar_without_y !! "y_field") in
     if truthy y then Some (PVal y) else None) ∧
  fig_params Sample.bar_figure !! "color" =
    (let color := default PyNone (Sample.bar_without_y !! "color_field") in
     if truthy color then Some (PVal color) else None) ∧
  fig_params Sample.bar_figure !! "orientation" =
    (let orientation := default PyNone (Sample.bar_without_y !! "orientation") in
     if truthy orientation then Some (PVal orientation) else None) ∧
  fig_params Sample.bar_figure !! "values" = None ∧
  fig_params Sample.bar_figure !! "names" = None ∧
  fig_params Sample.bar_figure !! "path" = None.
Proof.
  apply (generate_chart_axes Sample.table 0 _ _ Sample.bar_without_y "bar").
  - reflexivity.
  - reflexivity.
  - intros H. enumerate H; discriminate.
  - vm_compute. reflexivity.
Defined.

(** X7: when the [x_field] of the configuration names no column of the
    (non-empty) table, [generate_chart] returns no figure and shows one
    "Chart generation error", whatever the chart type and the other
    entries. *)
Theorem generate_chart_unknown_x_field
    (df : DataFrame) (config : loc) (w : world) (cfg : dict) (x : string) :
  rows df ≠ [] →
  heap w !! config = Some cfg →
  cfg !! "x_field" = Some (PyStr x) →
  x ∉ columns df →
  ∃ e, generate_chart (Some df) config w =
         (inr None,
          mkWorld (heap w) (custom_charts w)
                  (screen w ++ [StError "Chart generation error: " e])).
Proof.
  intros Hrows Hc Hx Hcol.
  rewrite (generate_chart_call df config w cfg Hrows Hc).
  destruct (chart_call cfg) as [e|[f params]] eqn:Hcall; cbn [mbind result_bind];
    [eexists; reflexivity|].
  apply chart_call_inv in Hcall
    as (_ & _ & title & x' & _ & Hx' & _ & _ & _ & Hrest).
  rewrite Hx in Hx'. injection Hx' as <-.
  assert (Hbad : ∃ k p, params !! k = Some p ∧ ¬ column_ref_ok df k p).
  { destruct (bool_decide (f ∈ ["pie"; "sunburst"; "treemap"])).
    - destruct Hrest as (_ & _ & _ & Hrest).
      destruct (bool_decide (f ∈ ["sunburst"; "treemap"])).
      + exists "path", (PPath [PyStr x]). split; [apply Hrest|].
        intros [Hk|Hall]; [enumerate Hk; discriminate|].
        inversion Hall; subst. contradiction.
      + exists "names", (PVal (PyStr x)). split; [apply Hrest|].
        intros [Hk|Hin]; [enumerate Hk; discriminate|contradiction].
    - exists "x", (PVal (PyStr x)). split; [apply Hrest|].
      intros [Hk|Hin]; [enumerate Hk; discriminate|contradiction]. }
  destruct Hbad as (k & p & Hk & Hp).
  destruct (px_call_bad_ref f df params k p Hk Hp) as [e ->].
  eexists. reflexivity.
Qed.

Lemma generate_chart_unknown_x_field_witness :
  ∃ e, generate_chart (Some Sample.table) 0
         (Sample.session (Sample.chart "bar" "operator" PyNone "none")) =
         (inr None,
          mkWorld (heap (Sample.session (Sample.chart "bar" "operator" PyNone "none")))
                  (custom_charts (Sample.session (Sample.chart "bar" "operator" PyNone "none")))
                  (screen (Sample.session (Sample.chart "bar" "operator" PyNone "none"))
                     ++ [StError "Chart generation error: " e])).
Proof.
  apply (generate_chart_unknown_x_field Sample.table 0
           (Sample.session (Sample.chart "bar" "operator" PyNone "none"))
           (Sample.chart "bar" "operator" PyNone "none") "operator").
  - discriminate.
  - reflexivity.
  - reflexivity.
  - intros H. enumerate H; discriminate.
Defined.

(** ** The rendering loop *)

Ltac reads_only_step' :=
  first [ apply generate_chart_reads_only | reads_only_step ].

Section Rendering.

Variable object_agg : string → list cell → result cell.

(** What follows the preparation of the data in the loop body. *)
Lemma render_after_prepare (filtered_df : DataFrame) (chart_config : loc) (w : world) :
  render_custom_chart object_agg filtered_df chart_config w =
    match copy chart_config w with
    | (inr config_copy, w1) =>
        match prepare_chart_data object_agg filtered_df config_copy w1 with
        | (inr chart_data, w2) =>
            match chart_data with
            | Some data =>
                if decide (0 < len data)%nat then
                  fig ← generate_chart (Some data) chart_config;
                  match fig with
                  | Some fig => st_show (StPlot fig)
                  | None => (mret () : py ())
                  end
                else
                  title ← getitem chart_config "title";
                  st_show (StWarning ("No data available for chart: " ++ py_str title))
            | None =>
                title ← getitem chart_config "title";
                st_show (StWarning ("No data available for chart: " ++ py_str title))
            end w2
        | (inl e, w2) => (inl e, w2)
        end
    | (inl e, w1) => (inl e, w1)
    end.
Proof.
  unfold render_custom_chart. unfold mbind at 1. unfold py_bind at 1.
  destruct (copy chart_config w) as [[e|c'] w1]; [reflexivity|].
  unfold mbind at 1. unfold py_bind at 1.
  destruct (prepare_chart_data object_agg filtered_df c' w1) as [[e|r] w2]; reflexivity.
Qed.

Lemma render_custom_chart_extends (filtered_df : DataFrame) (chart_config : loc) (w : world) :
  let w' := (render_custom_chart object_agg filtered_df chart_config w).2 in
  heap w ⊆ heap w' ∧ custom_charts w' = custom_charts w.
Proof.
  intros w'. subst w'. rewrite render_after_prepare.
  destruct w as [h cc s]. unfold copy. cbn [heap custom_charts screen].
  destruct (h !! chart_config) as [cfg|] eqn:Hc; [|split; reflexivity].
  set (c' := fresh_loc h).
  assert (Hfresh : h !! c' = None).
  { apply not_elem_of_dom. unfold c', fresh_loc. apply is_fresh. }
  destruct (prepare_chart_data object_agg filtered_df c'
              (mkWorld (<[c' := cfg]> h) cc s)) as [r w2] eqn:Hrun.
  apply prepare_outcome_cases in Hrun as [Hcc Hcases].
  assert (Hext : h ⊆ heap w2).
  { destruct Hcases as [(e & _ & -> & _)|(out & _ & _ & [->|(cfg' & _ & _ & ->)])].
    - apply insert_subseteq, Hfresh.
    - apply insert_subseteq, Hfresh.
    - rewrite insert_insert_eq. apply insert_subseteq, Hfresh. }
  destruct Hcases as [(e & -> & _)|(out & -> & _)].
  - match goal with
    | |- context [?m w2] =>
        assert (Hro : reads_only m) by (repeat reads_only_step');
        destruct (Hro w2) as [Hh Hc2]
    end.
    cbn [snd]. rewrite Hh, Hc2. auto.
  - match goal with
    | |- context [?m w2] =>
        assert (Hro : reads_only m) by (repeat reads_only_step');
        destruct (Hro w2) as [Hh Hc2]
    end.
    cbn [snd]. rewrite Hh, Hc2. auto.
Qed.

(** One turn of the loop. *)
Lemma render_rows_cons (filtered_df : DataFrame) (clicked : string → bool)
    (idx : nat) (keys : list string) (c : loc) (charts : list loc) (w : world) :
  render_rows object_agg filtered_df clicked idx keys (c :: charts) w =
    match render_custom_chart object_agg filtered_df c w with
    | (inl e, w1) => (inl e, w1)
    | (inr _, w1) =>
        match heap w1 !! c with
        | None => (inl (TypeError "not a dict"), w1)
        | Some cfg =>
            match cfg !! "id" with
            | None => (inl (KeyError "id"), w1)
            | Some id =>
                let key := "delete_" ++ py_str id in
                if decide (key ∈ keys) then (inl (DuplicateWidgetID key), w1)
                else if clicked key then
                  if decide (idx < length (custom_charts w1))%nat then
                    (inr Rerun,
                     mkWorld (heap w1) (delete idx (custom_charts w1)) (screen w1))
                  else (inl (IndexError "pop index out of range"), w1)
                else render_rows object_agg filtered_df clicked (S idx) (key :: keys)
                       charts w1
            end
        end
    end.
Proof.
  cbn [render_rows]. unfold mbind at 1. unfold py_bind at 1.
  destruct (render_custom_chart object_agg filtered_df c w) as [[e|[]] w1]; [reflexivity|].
  unfold mbind at 1. unfold py_bind at 1. unfold getitem, deref.
  unfold mbind at 1. unfold py_bind at 1.
  destruct (heap w1 !! c) as [cfg|]; [|reflexivity].
  destruct (cfg !! "id") as [id|]; [|reflexivity].
  cbv beta iota zeta delta [mret py_ret raise].
  destruct (decide ("delete_" ++ py_str id ∈ keys)); [reflexivity|].
  destruct (clicked ("delete_" ++ py_str id)); [|reflexivity].
  unfold mbind, py_bind, pop_custom_chart.
  destruct (decide (idx < length (custom_charts w1))%nat); reflexivity.
Qed.

(** The pass leaves every stored object as it is; it changes the list of
    charts only when it ends in a rerun, by removing the chart whose button
    was clicked. *)
Lemma render_rows_outcome (filtered_df : DataFrame) (clicked : string → bool)
    (charts pre : list loc) (keys : list string) (w : world) :
  custom_charts w = (pre ++ charts)%list →
  let run := render_rows object_agg filtered_df clicked (length pre) keys charts w in
  heap w ⊆ heap run.2 ∧
  match run.1 with
  | inr Rerun =>
      ∃ (idx : nat) (c : loc) (cfg : dict) (id : pyval),
        custom_charts w !! idx = Some c ∧
        heap run.2 !! c = Some cfg ∧
        cfg !! "id" = Some id ∧
        clicked ("delete_" ++ py_str id) = true ∧
        custom_charts run.2 = delete idx (custom_charts w)
  | _ => custom_charts run.2 = custom_charts w
  end.
Proof.
  revert pre keys w. induction charts as [|c charts IH]; intros pre keys w Hcharts run.
  { subst run. cbn. split; reflexivity. }
  subst run. rewrite render_rows_cons.
  destruct (render_custom_chart_extends filtered_df c w) as [Hh Hc].
  destruct (render_custom_chart object_agg filtered_df c w) as [[e|[]] w1];
    cbn [fst snd] in *; [auto|].
  destruct (heap w1 !! c) as [cfg|] eqn:Hcfg; cbn [fst snd]; [|auto].
  destruct (cfg !! "id") as [id|] eqn:Hid; cbn [fst snd]; [|auto].
  cbv zeta.
  destruct (decide ("delete_" ++ py_str id ∈ keys)); cbn [fst snd]; [auto|].
  destruct (clicked ("delete_" ++ py_str id)) eqn:Hclicked.
  - destruct (decide (length pre < length (custom_charts w1))%nat); cbn [fst snd]; [|auto].
    split; [exact Hh|].
    exists (length pre), c, cfg, id. cbn [heap custom_charts].
    split; [rewrite Hcharts; apply list_lookup_middle; reflexivity|].
    split; [exact Hcfg|]. split; [exact Hid|]. split; [exact Hclicked|].
    rewrite Hc. reflexivity.
  - assert (Hcharts1 : custom_charts w1 = ((pre ++ [c]) ++ charts)%list).
    { rewrite Hc, Hcharts, <- app_assoc. reflexivity. }
    specialize (IH (pre ++ [c])%list (("delete_" ++ py_str id) :: keys) w1 Hcharts1).
    rewrite length_app, Nat.add_1_r in IH. cbv zeta in IH.
    destruct IH as [Hh1 Hrest]. split; [etrans; eassumption|].
    rewrite <- Hc. exact Hrest.
Qed.

(** X8: rendering the custom charts never alters a stored configuration:
    after [render_custom_charts], however it ended, every object that was in
    the store is there with the same entries (the store only gains the copies
    the loop made). The list of charts is changed in one case only: the pass
    ends in a rerun, after the Delete button of one of the charts was
    clicked, and then the list has lost the chart at that position and
    nothing else. *)
Theorem render_custom_charts_keeps_configurations
    (filtered_df : DataFrame) (clicked : string → bool) (w : world) :
  let run := render_custom_charts object_agg filtered_df clicked w in
  heap w ⊆ heap run.2 ∧
  match run.1 with
  | inr Rerun =>
      ∃ (idx : nat) (c : loc) (cfg : dict) (id : pyval),
        custom_charts w !! idx = Some c ∧
        heap run.2 !! c = Some cfg ∧
        cfg !! "id" = Some id ∧
        clicked ("delete_" ++ py_str id) = true ∧
        custom_charts run.2 = delete idx (custom_charts w)
  | _ => custom_charts run.2 = custom_charts w
  end.
Proof.
  intros run. subst run.
  assert (Hrun : render_custom_charts object_agg filtered_df clicked w =
            match custom_charts w with
            | [] =>
                (inr Finished,
                 mkWorld (heap w) (custom_charts w)
                   (screen w ++ [StInfo
                      "No custom charts yet. Use the Chart Builder in the sidebar to create one!"]))
            | _ => render_rows object_agg filtered_df clicked 0 [] (custom_charts w) w
            end).
  { unfold render_custom_charts, get_custom_charts.
    cbv beta iota zeta delta [mbind py_bind mret py_ret st_show].
    destruct w as [h [|c charts] s]; reflexivity. }
  rewrite Hrun. clear Hrun.
  destruct (custom_charts w) as [|c charts] eqn:Hcharts.
  - cbn. split; reflexivity.
  - rewrite <- Hcharts.
    apply (render_rows_outcome filtered_df clicked (custom_charts w) [] [] w).
    reflexivity.
Qed.

(** X9: a chart draws the counts only if it was stored without a y field.
    With [aggregation = count], a chart type other than [scatter] and
    [histogram], and a stored [y_field] that names a column other than
    [x_field] and ['count'], the first column of the loop body plots nothing:
    the data are counted
    into the columns [x_field] and ['count'], but the figure is generated
    from the stored configuration, whose [y_field] is not a column of the
    counted table, and a "Chart generation error" is shown instead. *)
Theorem render_count_with_y_field_fails
    (df : DataFrame) (config : loc) (w : world) (cfg : dict)
    (x y : string) (chart_type : pyval) (r : row) :
  heap w !! config = Some cfg →
  cfg !! "x_field" = Some (PyStr x) →
  default (PyStr "count") (cfg !! "aggregation") = PyStr "count" →
  cfg !! "chart_type" = Some chart_type →
  chart_type ∉ [PyStr "scatter"; PyStr "histogram"] →
  x ∈ columns df →
  x ≠ "count" →
  cfg !! "y_field" = Some (PyStr y) →
  y ≠ "" → y ≠ x → y ≠ "count" →
  r ∈ rows df → cell_at x r ≠ CNaN →
  ∃ e,
    screen (render_custom_chart object_agg df config w).2 =
      (screen w ++ [StError "Chart generation error: " e])%list.
Proof.
  intros Hc Hx Hagg Hct Hraw Hcol Hne Hy Hy0 Hyx Hycount Hr Hkey.
  rewrite render_after_prepare. unfold copy. rewrite Hc.
  set (c' := fresh_loc (heap w)).
  assert (Hfresh : heap w !! c' = None).
  { apply not_elem_of_dom. unfold c', fresh_loc. apply is_fresh. }
  assert (Hc' : c' ≠ config) by (intros ->; congruence).
  rewrite (prepare_count_run object_agg df c' _ cfg (PyStr x) chart_type
             (lookup_insert_eq _ _ _) Hx Hagg Hct Hraw).
  unfold groupby_size.
  rewrite decide_True by exact Hcol. rewrite decide_False by exact Hne.
  cbn [heap custom_charts screen]. rewrite insert_insert_eq.
  set (out := mkDF [x; "count"] _). set (w2 := mkWorld _ _ _).
  assert (Hkeys : cell_at x r ∈ group_keys x df).
  { apply group_keys_spec. split; [exact Hkey|]. apply list_elem_of_fmap. eauto. }
  assert (Hlen : (0 < len out)%nat).
  { unfold len, out. cbn [rows]. rewrite length_map.
    destruct (group_keys x df); [apply elem_of_nil in Hkeys; destruct Hkeys|simpl; lia]. }
  rewrite decide_True by exact Hlen.
  assert (Hrows : rows out ≠ []).
  { intros Hnil. unfold len in Hlen. rewrite Hnil in Hlen. simpl in Hlen. lia. }
  assert (Hc2 : heap w2 !! config = Some cfg).
  { unfold w2. cbn [heap]. rewrite lookup_insert_ne by exact Hc'. exact Hc. }
  unfold mbind, py_bind.
  rewrite (generate_chart_call out config w2 cfg Hrows Hc2).
  assert (Hfail : ∃ e, ('(px_func, params) ← chart_call cfg; px_call px_func out params)
                       = inl e).
  { destruct (chart_call cfg) as [e|[f params]] eqn:Hcall; cbn [mbind result_bind];
      [eauto|].
    apply chart_call_inv in Hcall as (_ & _ & title & x' & _ & _ & _ & _ & _ & Hrest).
    rewrite Hy in Hrest. cbn [default from_option id] in Hrest.
    assert (Htruthy : truthy (PyStr y) = true).
    { cbn [truthy]. destruct (String.eqb_spec y ""); [contradiction|reflexivity]. }
    rewrite Htruthy in Hrest.
    assert (Hnocol : ¬ column_ref_ok out "y" (PVal (PyStr y)) ∧
                     ¬ column_ref_ok out "values" (PVal (PyStr y))).
    { split; intros [Hk|Hin]; try (enumerate Hk; discriminate);
        unfold out in Hin; cbn [columns] in Hin; enumerate Hin; congruence. }
    destruct (bool_decide (f ∈ ["pie"; "sunburst"; "treemap"])).
    - destruct Hrest as (Hvalues & _).
      apply (px_call_bad_ref f out params "values" _ Hvalues), Hnocol.
    - destruct Hrest as (_ & Hpy & _).
      apply (px_call_bad_ref f out params "y" _ Hpy), Hnocol. }
  destruct Hfail as [e ->]. exists e. reflexivity.
Qed.

End Rendering.

Lemma render_count_with_y_field_fails_witness :
  ∃ e,
    screen (render_custom_chart no_object_agg Sample.table 0
       (Sample.session (Sample.chart "bar" "aircraft_category"
                          (PyStr "fatalities_num") "count"))).2 =
      (screen (Sample.session (Sample.chart "bar" "aircraft_category"
                                 (PyStr "fatalities_num") "count"))
         ++ [StError "Chart generation error: " e])%list.
Proof.
  apply (render_count_with_y_field_fails no_object_agg Sample.table 0 _
           (Sample.chart "bar" "aircraft_category" (PyStr "fatalities_num") "count")
           "aircraft_category" "fatalities_num" (PyStr "bar")
           (Sample.coerced "ATR 72-600" "0" 0)).
  - reflexivity.
  - reflexivity.
  - reflexivity.
  - reflexivity.
  - intros H. enumerate H; discriminate.
  - apply list_elem_of_here.
  - discriminate.
  - reflexivity.
  - discriminate.
  - discriminate.
  - discriminate.
  - apply list_elem_of_here.
  - discriminate.
Defined.

(** ** [prepare_chart_data]: edge cases *)

Section Prepare_edges.

Variable object_agg : string → list cell → result cell.

(** X10: when the [x_field] names no column of the table and the data are
    to be grouped (counted, or reduced by a statistic of a [y_field] that is
    set), [prepare_chart_data] returns no table, shows the "Data preparation
    error" of the missing key, and leaves the configuration as it was. *)
Theorem prepare_unknown_x_field
    (df : DataFrame) (config : loc) (w : world) (cfg : dict)
    (x : string) (chart_type : pyval) :
  heap w !! config = Some cfg →
  cfg !! "x_field" = Some (PyStr x) →
  x ∉ columns df →
  cfg !! "chart_type" = Some chart_type →
  chart_type ∉ [PyStr "scatter"; PyStr "histogram"] →
  (default (PyStr "count") (cfg !! "aggregation") = PyStr "count" ∨
   ∃ how y, cfg !! "aggregation" = Some (PyStr how) ∧
            how ∈ ["sum"; "mean"; "median"; "min"; "max"] ∧
            cfg !! "y_field" = Some (PyStr y) ∧ y ≠ "") →
  prepare_chart_data object_agg df config w =
    (inr None,
     mkWorld (heap w) (custom_charts w)
             (screen w ++ [StError "Data preparation error: " (KeyError x)])).
Proof.
  intros Hc Hx Hcol Hct Hraw [Hcount|(how & y & Hagg & Hhow & Hy & Hne)].
  - rewrite (prepare_count_run object_agg df config w cfg (PyStr x) chart_type
               Hc Hx Hcount Hct Hraw).
    unfold groupby_size. rewrite decide_False by exact Hcol. reflexivity.
  - rewrite (prepare_statistic_run object_agg df config w cfg (PyStr x) chart_type y how
               Hc Hx Hy Hne Hagg Hhow Hct Hraw).
    unfold groupby_agg. rewrite decide_False by exact Hcol. reflexivity.
Qed.

(** X11: a configuration that asks for something other than [none] and
    [count] but gives no way to compute it, because its [y_field] is not set
    or its [aggregation] is not one of sum, mean, median, min and max, is not
    rejected: the table is returned as it is, nothing is shown and nothing is
    updated. *)
Theorem prepare_without_statistic
    (df : DataFrame) (config : loc) (w : world) (cfg : dict)
    (aggregation chart_type : pyval) :
  heap w !! config = Some cfg →
  is_Some (cfg !! "x_field") →
  cfg !! "aggregation" = Some aggregation →
  aggregation ≠ PyStr "none" →
  aggregation ≠ PyStr "count" →
  cfg !! "chart_type" = Some chart_type →
  truthy (default PyNone (cfg !! "y_field")) = false ∨
    aggregation ∉ map PyStr ["sum"; "mean"; "median"; "min"; "max"] →
  prepare_chart_data object_agg df config w = (inr (Some df), w).
Proof.
  intros Hc [x Hx] Hagg Hnone Hcount Hct Hno.
  py_unfold. py_run with Hc. rewrite Hx. py_run with Hc. rewrite Hagg.
  cbn [default from_option id].
  rewrite decide_False by exact Hnone. py_run with Hc. rewrite Hct. py_simpl.
  destruct (bool_decide (chart_type ∈ [PyStr "scatter"; PyStr "histogram"]));
    [reflexivity|].
  py_simpl. rewrite decide_False by exact Hcount.
  destruct Hno as [Hy|Hagg'].
  - cbn [default from_option id] in Hy. rewrite Hy. reflexivity.
  - rewrite (bool_decide_false _ Hagg'), andb_false_r. reflexivity.
Qed.

End Prepare_edges.

Lemma prepare_unknown_x_field_witness :
  prepare_chart_data no_object_agg Sample.table 0
    (Sample.session (Sample.chart "bar" "operator" (PyStr "fatalities_num") "sum")) =
    (inr None,
     mkWorld (heap (Sample.session (Sample.chart "bar" "operator" (PyStr "fatalities_num") "sum")))
             (custom_charts (Sample.session (Sample.chart "bar" "operator" (PyStr "fatalities_num") "sum")))
             (screen (Sample.session (Sample.chart "bar" "operator" (PyStr "fatalities_num") "sum"))
                ++ [StError "Data preparation error: " (KeyError "operator")])).
Proof.
  apply (prepare_unknown_x_field no_object_agg Sample.table 0 _
           (Sample.chart "bar" "operator" (PyStr "fatalities_num") "sum")
           "operator" (PyStr "bar")).
  - reflexivity.
  - reflexivity.
  - intros H. enumerate H; discriminate.
  - reflexivity.
  - intros H. enumerate H; discriminate.
  - right. exists "sum", "fatalities_num".
    split; [reflexivity|]. split; [apply list_elem_of_here|].
    split; [reflexivity|discriminate].
Defined.

Lemma prepare_without_statistic_witness :
  prepare_chart_data no_object_agg Sample.table 0
    (Sample.session (Sample.chart "bar" "aircraft_category" PyNone "sum")) =
    (inr (Some Sample.table),
     Sample.session (Sample.chart "bar" "aircraft_category" PyNone "sum")).
Proof.
  apply (prepare_without_statistic no_object_agg Sample.table 0 _
           (Sample.chart "bar" "aircraft_category" PyNone "sum")
           (PyStr "sum") (PyStr "bar")).
  - reflexivity.
  - eexists. reflexivity.
  - reflexivity.
  - discriminate.
  - discriminate.
  - reflexivity.
  - left. reflexivity.
Defined.

(** ** The configuration stored by the chart builder *)

Lemma categorical_fields_base (df : DataFrame) (is_enhanced : bool) :
  ∃ rest, get_categorical_fields df is_enhanced = ("type" :: rest)%list.
Proof. unfold get_categorical_fields. destruct is_enhanced; eexists; reflexivity. Qed.

(** Every entry of the stored configuration, from the widgets. *)
Lemma render_chart_builder_entries
    (df : DataFrame) (is_enhanced : bool) (ui : builder_widgets) (w : world) :
  w_add_chart ui = true →
  ∃ (ct : string) (descr : ChartFamilyDescriptor),
    (ct, descr) ∈ CHART_TYPES ∧
    let numeric_fields := get_numeric_fields df is_enhanced in
    let categorical_fields := get_categorical_fields df is_enhanced in
    let x := selectbox (categorical_fields ++ numeric_fields)%list (w_x_field ui) in
    let y := if needs_y descr then selectbox numeric_fields (w_y_field ui) else PyNone in
    let aggregation :=
      if bool_decide (x ∈ map PyStr categorical_fields) && truthy y
      then selectbox AGGREGATIONS (w_aggregation ui)
      else if decide (PyStr ct = PyStr "histogram") then PyStr "none"
      else PyStr "count" in
    let color :=
      if w_show_advanced ui then
        if decide (selectbox ("None" :: categorical_fields) (w_color_field ui) = PyStr "None")
        then PyNone
        else selectbox ("None" :: categorical_fields) (w_color_field ui)
      else PyNone in
    let orientation :=
      if w_show_advanced ui then
        if supports_orientation descr then
          if decide (selectbox ["Horizontal"; "Vertical"] (w_orientation ui) = PyStr "Horizontal")
          then PyStr "h" else PyStr "v"
        else PyNone
      else PyNone in
    let c := fresh_loc (heap w) in
    let cfg : dict :=
      list_to_map
        [ ("id", PyStr ("chart_" ++ w_now ui));
          ("title", PyStr (w_title ui));
          ("chart_type", PyStr ct);
          ("x_field", x);
          ("y_field", y);
          ("aggregation", aggregation);
          ("color_field", color);
          ("orientation", orientation) ] in
    render_chart_builder df is_enhanced ui w =
      (inr (Some c),
       mkWorld (<[c := cfg]> (heap w)) (custom_charts w ++ [c])
               (screen w ++ [StSuccess "✓ Chart added successfully!"])).
Proof.
  intros Hadd.
  destruct (selectbox_elem (map fst CHART_TYPES) (w_chart_type ui)) as (ct & Hsel & Hct);
    [discriminate|].
  destruct (describe_registry ct Hct) as (descr & Hdescr & Hin).
  exists ct, descr. split; [exact Hin|].
  unfold render_chart_builder. rewrite Hsel. cbn [py_str].
  cbv beta iota zeta delta [mbind py_bind lift]. rewrite Hdescr, Hadd.
  reflexivity.
Qed.

(** X12: the chart builder changes the state only when the button is
    pressed, and then only by adding: the new configuration is a new object
    with exactly the eight entries of a chart, it is put last in the list of
    charts, one success message is shown, and every object and every chart
    stored before is as it was. *)
Theorem render_chart_builder_appends
    (df : DataFrame) (is_enhanced : bool) (ui : builder_widgets) (w : world) :
  if w_add_chart ui then
    ∃ (c : loc) (cfg : dict),
      render_chart_builder df is_enhanced ui w =
        (inr (Some c),
         mkWorld (<[c := cfg]> (heap w)) (custom_charts w ++ [c])
                 (screen w ++ [StSuccess "✓ Chart added successfully!"])) ∧
      heap w !! c = None ∧
      dom cfg = list_to_set ["id"; "title"; "chart_type"; "x_field"; "y_field";
                             "aggregation"; "color_field"; "orientation"]
  else render_chart_builder df is_enhanced ui w = (inr None, w).
Proof.
  destruct (w_add_chart ui) eqn:Hadd.
  - destruct (render_chart_builder_entries df is_enhanced ui w Hadd)
      as (ct & descr & _ & Hrun).
    cbv zeta in Hrun. eexists _, _. split; [exact Hrun|]. split.
    + apply not_elem_of_dom. unfold fresh_loc. apply is_fresh.
    + rewrite dom_list_to_map_L. reflexivity.
  - destruct (selectbox_elem (map fst CHART_TYPES) (w_chart_type ui)) as (ct & Hsel & Hct);
      [discriminate|].
    destruct (describe_registry ct Hct) as (descr & Hdescr & _).
    unfold render_chart_builder. rewrite Hsel. cbn [py_str].
    cbv beta iota zeta delta [mbind py_bind lift]. rewrite Hdescr, Hadd.
    reflexivity.
Qed.

(** X13: the configuration the builder stores is well formed: its chart
    type is a key of the registry; its [x_field] is one of the offered
    fields (categorical or numeric); its [color_field] is [None] or one of
    the categorical fields, and is set only with the advanced options shown;
    its [orientation] is [None], ['h'] or ['v'], and is set only for a bar
    chart with the advanced options shown; its title is the text typed. *)
Theorem render_chart_builder_well_formed
    (df : DataFrame) (is_enhanced : bool) (ui : builder_widgets) (w : world) :
  w_add_chart ui = true →
  ∃ (c : loc) (w' : world) (cfg : dict) (ct x : string),
    render_chart_builder df is_enhanced ui w = (inr (Some c), w') ∧
    heap w' !! c = Some cfg ∧
    cfg !! "title" = Some (PyStr (w_title ui)) ∧
    cfg !! "chart_type" = Some (PyStr ct) ∧
    ct ∈ map fst CHART_TYPES ∧
    cfg !! "x_field" = Some (PyStr x) ∧
    x ∈ (get_categorical_fields df is_enhanced ++ get_numeric_fields df is_enhanced)%list ∧
    (cfg !! "color_field" = Some PyNone ∨
     ∃ f, cfg !! "color_field" = Some (PyStr f) ∧
          f ∈ get_categorical_fields df is_enhanced ∧ w_show_advanced ui = true) ∧
    (cfg !! "orientation" = Some PyNone ∨
     (cfg !! "orientation" = Some (PyStr "h") ∨ cfg !! "orientation" = Some (PyStr "v")) ∧
     ct = "bar" ∧ w_show_advanced ui = true).
Proof.
  intros Hadd.
  destruct (render_chart_builder_entries df is_enhanced ui w Hadd)
    as (ct & descr & Hin & Hrun).
  cbv zeta in Hrun.
  destruct (categorical_fields_base df is_enhanced) as [rest Hcats].
  destruct (selectbox_elem
              (get_categorical_fields df is_enhanced ++ get_numeric_fields df is_enhanced)%list
              (w_x_field ui)) as (x & Hx & Hxin).
  { rewrite Hcats. discriminate. }
  destruct (selectbox_elem ("None" :: get_categorical_fields df is_enhanced)
              (w_color_field ui)) as (col & Hcol & Hcolin); [discriminate|].
  rewrite Hx, Hcol in Hrun.
  eexists _, _, _, ct, x. split; [exact Hrun|].
  cbn [heap]. split; [apply lookup_insert_eq|].
  split; [reflexivity|]. split; [reflexivity|].
  split; [apply list_elem_of_fmap; exists (ct, descr); auto|].
  split; [reflexivity|]. split; [exact Hxin|].
  split.
  - match goal with
    | |- context [list_to_map ?l !! "color_field"] =>
        match l with
        | context [("color_field", ?v)] =>
            change (list_to_map l !! "color_field") with (Some v)
        end
    end.
    destruct (w_show_advanced ui); [|left; reflexivity].
    destruct (decide (PyStr col = PyStr "None")) as [E|E]; [left; reflexivity|].
    right. exists col. split; [reflexivity|]. split; [|reflexivity].
    apply elem_of_cons in Hcolin as [->|Hcolin]; [congruence|exact Hcolin].
  - match goal with
    | |- context [list_to_map ?l !! "orientation"] =>
        match l with
        | context [("orientation", ?v)] =>
            change (list_to_map l !! "orientation") with (Some v)
        end
    end.
    destruct (w_show_advanced ui); [|left; reflexivity].
    destruct (supports_orientation descr) eqn:Hsup; [|left; reflexivity].
    right. split; [destruct (decide (selectbox ["Horizontal"; "Vertical"] (w_orientation ui)
                                    = PyStr "Horizontal")); [left|right]; reflexivity|]. split; [|reflexivity].
    unfold CHART_TYPES in Hin. enumerate Hin; injection Hin as Hs Hd; subst ct descr;
      first [reflexivity | discriminate Hsup].
Qed.

Lemma render_chart_builder_well_formed_witness :
  ∃ (c : loc) (w' : world) (cfg : dict) (ct x : string),
    render_chart_builder Sample.table false (Sample.widgets 0 1 2) (mkWorld ∅ [] []) =
      (inr (Some c), w') ∧
    heap w' !! c = Some cfg ∧
    cfg !! "title" = Some (PyStr (w_title (Sample.widgets 0 1 2))) ∧
    cfg !! "chart_type" = Some (PyStr ct) ∧
    ct ∈ map fst CHART_TYPES ∧
    cfg !! "x_field" = Some (PyStr x) ∧
    x ∈ (get_categorical_fields Sample.table false ++
         get_numeric_fields Sample.table false)%list ∧
    (cfg !! "color_field" = Some PyNone ∨
     ∃ f, cfg !! "color_field" = Some (PyStr f) ∧
          f ∈ get_categorical_fields Sample.table false ∧
          w_show_advanced (Sample.widgets 0 1 2) = true) ∧
    (cfg !! "orientation" = Some PyNone ∨
     (cfg !! "orientation" = Some (PyStr "h") ∨ cfg !! "orientation" = Some (PyStr "v")) ∧
     ct = "bar" ∧ w_show_advanced (Sample.widgets 0 1 2) = true).
Proof.
  apply (render_chart_builder_well_formed Sample.table false (Sample.widgets 0 1 2)).
  reflexivity.
Defined.

Ltac entry k :=
  match goal with
  | |- context [list_to_map ?l !! k] =>
      match l with
      | context [(k, ?v)] => change (list_to_map l !! k) with (Some v)
      end
  end.

(** The call [generate_chart] makes for a configuration of the builder is
    one Plotly Express has every keyword of; an orientation is passed for a
    bar chart only, and is ['h'] or ['v']. *)
Lemma builder_chart_call
    (df : DataFrame) (is_enhanced : bool) (ui : builder_widgets) (w : world) :
  w_add_chart ui = true →
  ∃ (c : loc) (w' : world) (cfg : dict) (ct : string),
    render_chart_builder df is_enhanced ui w = (inr (Some c), w') ∧
    heap w' !! c = Some cfg ∧
    ∃ params : gmap string param,
      chart_call cfg = inr (ct, params) ∧
      params !! "title" = Some (PVal (PyStr (w_title ui))) ∧
      map_Forall (λ k _, k ∈ px_keywords ct) params ∧
      match params !! "orientation" with
      | Some p => ct = "bar" ∧ (p = PVal (PyStr "h") ∨ p = PVal (PyStr "v"))
      | None => True
      end.
Proof.
  intros Hadd.
  destruct (render_chart_builder_entries df is_enhanced ui w Hadd)
    as (ct & descr & Hin & Hrun).
  cbv zeta in Hrun.
  eexists _, _, _, ct. split; [exact Hrun|]. clear Hrun.
  cbn [heap]. split; [apply lookup_insert_eq|].
  unfold chart_call, lookup_item.
  entry "chart_type". entry "title". entry "x_field". entry "y_field".
  entry "color_field". entry "orientation".
  cbn [default from_option id].
  set (x := selectbox _ (w_x_field ui)).
  set (yv := selectbox _ (w_y_field ui)).
  set (col := selectbox _ (w_color_field ui)).
  set (ori := selectbox _ (w_orientation ui)).
  unfold CHART_TYPES in Hin.
  enumerate Hin; injection Hin as Hs Hd; subst ct descr;
    cbn [needs_y supports_orientation];
    cbv beta iota zeta delta [mbind mret result_bind result_ret];
    match goal with
    | |- context [px_getattr ?v] =>
        let r := eval vm_compute in (px_getattr v) in
        change (px_getattr v) with r
    end;
    repeat match goal with
    | |- context [bool_decide ?P] =>
        let b := eval vm_compute in (bool_decide P) in
        change (bool_decide P) with b
    end;
    cbv beta iota;
    try destruct (truthy yv);
    destruct (w_show_advanced ui);
    try destruct (decide (col = PyStr "None"));
    try destruct (decide (ori = PyStr "Horizontal"));
    cbn [truthy String.eqb Ascii.eqb Bool.eqb negb];
    try destruct (truthy col);
    cbv beta iota;
    (eexists; split; [reflexivity|]; split; [by simplify_map_eq|];
     split; [map_Forall_entries; keyword|];
     simplify_map_eq; auto).
Qed.

(** X14: generating a chart that the builder made always gets as far as the
    call of Plotly Express. The function of the chart type exists, no entry
    that is read is missing, the title passed is the text typed, every
    keyword passed is one that function has, and an orientation is passed
    for a bar chart only, as ['h'] or ['v']. Over any table with at least one
    row, what [generate_chart] returns and shows is therefore the outcome of
    that one call: its figure, or one "Chart generation error" with the
    exception it raised. *)
Theorem builder_chart_generation
    (df : DataFrame) (is_enhanced : bool) (ui : builder_widgets) (w : world) :
  w_add_chart ui = true →
  ∃ (c : loc) (w' : world) (cfg : dict) (ct : string) (params : gmap string param),
    render_chart_builder df is_enhanced ui w = (inr (Some c), w') ∧
    heap w' !! c = Some cfg ∧
    cfg !! "chart_type" = Some (PyStr ct) ∧
    px_getattr (PyStr ct) = inr ct ∧
    params !! "title" = Some (PVal (PyStr (w_title ui))) ∧
    map_Forall (λ k _, k ∈ px_keywords ct) params ∧
    match params !! "orientation" with
    | Some p => ct = "bar" ∧ (p = PVal (PyStr "h") ∨ p = PVal (PyStr "v"))
    | None => True
    end ∧
    ∀ data : DataFrame,
      rows data ≠ [] →
      generate_chart (Some data) c w' =
        match px_call ct data params with
        | inr fig => (inr (Some fig), w')
        | inl e =>
            (inr None,
             mkWorld (heap w') (custom_charts w')
                     (screen w' ++ [StError "Chart generation error: " e]))
        end.
Proof.
  intros Hadd.
  destruct (builder_chart_call df is_enhanced ui w Hadd)
    as (c & w' & cfg & ct & Hrun & Hcfg & params & Hcall & Htitle & Hkeys & Horient).
  exists c, w', cfg, ct, params. split; [exact Hrun|]. split; [exact Hcfg|].
  pose proof (chart_call_inv cfg ct params Hcall) as (Hct & Hf & _).
  split; [exact Hct|].
  split; [unfold px_getattr; rewrite decide_True by exact Hf; reflexivity|].
  split; [exact Htitle|].
  split; [exact Hkeys|]. split; [exact Horient|].
  intros data Hrows.
  rewrite (generate_chart_call data c w' cfg Hrows Hcfg), Hcall.
  reflexivity.
Qed.

Lemma builder_chart_generation_witness :
  ∃ (c : loc) (w' : world) (cfg : dict) (ct : string) (params : gmap string param),
    render_chart_builder Sample.table false (Sample.widgets 0 1 2) (mkWorld ∅ [] []) =
      (inr (Some c), w') ∧
    heap w' !! c = Some cfg ∧
    cfg !! "chart_type" = Some (PyStr ct) ∧
    px_getattr (PyStr ct) = inr ct ∧
    params !! "title" = Some (PVal (PyStr (w_title (Sample.widgets 0 1 2)))) ∧
    map_Forall (λ k _, k ∈ px_keywords ct) params ∧
    match params !! "orientation" with
    | Some p => ct = "bar" ∧ (p = PVal (PyStr "h") ∨ p = PVal (PyStr "v"))
    | None => True
    end ∧
    ∀ data : DataFrame,
      rows data ≠ [] →
      generate_chart (Some data) c w' =
        match px_call ct data params with
        | inr fig => (inr (Some fig), w')
        | inl e =>
            (inr None,
             mkWorld (heap w') (custom_charts w')
                     (screen w' ++ [StError "Chart generation error: " e]))
        end.
Proof.
  apply (builder_chart_generation Sample.table false (Sample.widgets 0 1 2)
           (mkWorld ∅ [] [])).
  reflexivity.
Defined.

(** ** The field catalogues *)

(** X15: the categorical fields offered are the seven base fields, in this
    order and whether or not the table has them, followed, for enhanced data
    only, by those of the six enhanced fields, in their order, that are
    columns of the table holding at least one value that is not missing. *)
Theorem get_categorical_fields_spec (df : DataFrame) (is_enhanced : bool) :
  ∃ extra : list string,
    get_categorical_fields df is_enhanced =
      (["type"; "aircraft_category"; "operator"; "location";
        "damage"; "damage_full"; "type_code"] ++ extra)%list ∧
    extra `sublist_of` ["phase"; "nature"; "departure_airport";
                        "destination_airport"; "category"; "engine_model"] ∧
    ∀ f, f ∈ extra ↔
      is_enhanced = true ∧
      f ∈ ["phase"; "nature"; "departure_airport";
           "destination_airport"; "category"; "engine_model"] ∧
      f ∈ columns df ∧
      ∃ c, c ∈ column f df ∧ c ≠ CNaN.
Proof.
  assert (Hany : ∀ cs : list cell,
            existsb notna cs = true ↔ ∃ c, c ∈ cs ∧ c ≠ CNaN).
  { intros cs. rewrite existsb_exists. split.
    - intros (c & Hc & Hn). exists c. split; [apply list_elem_of_In, Hc|].
      intros ->. discriminate Hn.
    - intros (c & Hc & Hn). exists c. split; [apply list_elem_of_In, Hc|].
      destruct c; [reflexivity|reflexivity|contradiction]. }
  unfold get_categorical_fields. destruct is_enhanced.
  - eexists. split; [reflexivity|]. split; [apply sublist_filter|].
    intros f. rewrite list_elem_of_filter, Hany. tauto.
  - exists []. split; [symmetry; apply app_nil_r|]. split; [apply sublist_nil_l|].
    intros f. split; [intros H; apply elem_of_nil in H; destruct H|].
    intros (H & _). discriminate H.
Qed.

(** ** The derived columns of [load_data] *)

Section Load_data.

Variable parse_numeric : string → option Qc.

Lemma fatalities_num_inr (c : cell) :
  ∃ q, fatalities_num parse_numeric c = inr (CNum q).
Proof.
  unfold fatalities_num, to_numeric.
  destruct c as [s|q|]; [destruct (parse_numeric s)| |]; eexists; reflexivity.
Qed.

Lemma assign_rows (name src : string) (g : cell → cell) (df : DataFrame) :
  rows (assign name (map g (column src df)) df) =
    map (λ r, <[name := g (cell_at src r)]> r) (rows df).
Proof.
  unfold assign, column. cbn [rows].
  induction (rows df) as [|r rs IH]; [reflexivity|].
  cbn [map zip_with]. rewrite IH. reflexivity.
Qed.

Lemma assign_columns (name : string) (cells : list cell) (df : DataFrame) (c : string) :
  c ∈ columns (assign name cells df) ↔ c ∈ columns df ∨ c = name.
Proof.
  unfold assign. cbn [columns]. destruct (decide (name ∈ columns df)) as [Hin|Hin].
  - split; [auto|]. intros [H| ->]; assumption.
  - rewrite elem_of_app, list_elem_of_singleton. reflexivity.
Qed.

Lemma with_fatalities_num_run (df : DataFrame) :
  with_fatalities_num parse_numeric df =
    if decide ("fatalities" ∈ columns df) then
      let fat := λ c, match fatalities_num parse_numeric c with
                      | inr v => v
                      | inl _ => CNaN
                      end in
      inr (assign "fatalities_num" (map fat (column "fatalities" df)) df)
    else inl (KeyError "fatalities").
Proof.
  unfold with_fatalities_num, getcol.
  destruct (decide ("fatalities" ∈ columns df)) as [Hf|Hf]; [|reflexivity].
  cbn [mbind result_bind].
  rewrite (mapM_result_inr _ (λ c, match fatalities_num parse_numeric c with
                                   | inr v => v
                                   | inl _ => CNaN
                                   end)).
  2: { intros c _. destruct (fatalities_num_inr c) as [q ->]. reflexivity. }
  reflexivity.
Qed.

Lemma with_damage_full_run (df : DataFrame) :
  with_damage_full df =
    if decide ("damage" ∈ columns df)
    then inr (assign "damage_full" (map damage_full (column "damage" df)) df)
    else inl (KeyError "damage").
Proof.
  unfold with_damage_full, getcol.
  destruct (decide ("damage" ∈ columns df)); reflexivity.
Qed.

(** X16: the assignment of [fatalities_num] fails only for want of the
    [fatalities] column, with the [KeyError] of that column: the coercion of
    the cells never makes it fail. Likewise the assignment of [damage_full]
    fails only for want of the [damage] column. *)
Theorem derived_column_outcome (df : DataFrame) :
  match with_fatalities_num parse_numeric df with
  | inr _ => "fatalities" ∈ columns df
  | inl e => e = KeyError "fatalities" ∧ "fatalities" ∉ columns df
  end ∧
  match with_damage_full df with
  | inr _ => "damage" ∈ columns df
  | inl e => e = KeyError "damage" ∧ "damage" ∉ columns df
  end.
Proof.
  rewrite with_fatalities_num_run, with_damage_full_run.
  split; case_decide; cbv zeta; auto.
Qed.

(** X17: each of the two assignments keeps every record, in order, with
    every cell it had: the result has as many rows as the frame it is applied
    to, the columns of that frame and the derived one, and each row is the
    row of the frame with the derived cell set from its own source cell:
    [fatalities_num] to the number coerced from its [fatalities] cell,
    [damage_full] to the label of its [damage] cell. *)
Theorem derived_column_rows (df : DataFrame) :
  (∀ df', with_fatalities_num parse_numeric df = inr df' →
     len df' = len df ∧
     (∀ c, c ∈ columns df' ↔ c ∈ columns df ∨ c = "fatalities_num") ∧
     Forall2
       (λ r r', ∃ q,
          fatalities_num parse_numeric (cell_at "fatalities" r) = inr (CNum q) ∧
          r' = <["fatalities_num" := CNum q]> r)
       (rows df) (rows df')) ∧
  (∀ df', with_damage_full df = inr df' →
     len df' = len df ∧
     (∀ c, c ∈ columns df' ↔ c ∈ columns df ∨ c = "damage_full") ∧
     Forall2 (λ r r', r' = <["damage_full" := damage_full (cell_at "damage" r)]> r)
             (rows df) (rows df')).
Proof.
  split; intros df'.
  - rewrite with_fatalities_num_run. case_decide; [|discriminate].
    cbv zeta. intros [= <-].
    split; [|split].
    + unfold len. rewrite assign_rows. apply length_map.
    + intros c. apply assign_columns.
    + rewrite assign_rows. induction (rows df) as [|r rs IH]; constructor; [|exact IH].
      destruct (fatalities_num_inr (cell_at "fatalities" r)) as [q Hq].
      exists q. rewrite Hq. split; reflexivity.
  - rewrite with_damage_full_run. case_decide; [|discriminate].
    intros [= <-].
    split; [|split].
    + unfold len. rewrite assign_rows. apply length_map.
    + intros c. apply assign_columns.
    + rewrite assign_rows. induction (rows df) as [|r rs IH]; constructor; [reflexivity|exact IH].
Qed.

End Load_data.

Lemma derived_column_rows_witness :
  let df := mkDF ["fatalities"; "damage"]
                 [ {[ "fatalities" := CStr "5"; "damage" := CStr "sub" ]} ] in
  let with_num := mkDF ["fatalities"; "damage"; "fatalities_num"]
                  [ <["fatalities_num" := CNum (Qc_of_Z 5)]>
                      {[ "fatalities" := CStr "5"; "damage" := CStr "sub" ]} ] in
  let with_label := mkDF ["fatalities"; "damage"; "damage_full"]
                  [ <["damage_full" := CStr "Substantial"]>
                      {[ "fatalities" := CStr "5"; "damage" := CStr "sub" ]} ] in
  (len with_num = len df ∧
   (∀ c, c ∈ columns with_num ↔ c ∈ columns df ∨ c = "fatalities_num") ∧
   Forall2
     (λ r r', ∃ q,
        fatalities_num parse_decimal (cell_at "fatalities" r) = inr (CNum q) ∧
        r' = <["fatalities_num" := CNum q]> r)
     (rows df) (rows with_num)) ∧
  (len with_label = len df ∧
   (∀ c, c ∈ columns with_label ↔ c ∈ columns df ∨ c = "damage_full") ∧
   Forall2 (λ r r', r' = <["damage_full" := damage_full (cell_at "damage" r)]> r)
           (rows df) (rows with_label)).
Proof.
  intros df with_num with_label.
  destruct (derived_column_rows parse_decimal df) as [Hnum Hlabel].
  split.
  - apply (Hnum with_num). vm_compute. reflexivity.
  - apply (Hlabel with_label). vm_compute. reflexivity.
Defined.

(** ** The filters of [main] *)

Lemma boolean_index_map (m : cell → bool) (name : string) (df : DataFrame) :
  boolean_index (map m (column name df)) df =
    mkDF (columns df) (filter (λ r, m (cell_at name r) = true) (rows df)).
Proof.
  unfold boolean_index, column. f_equal.
  induction (rows df) as [|r rs IH]; [reflexivity|].
  cbn [map zip zip_with]. rewrite !filter_cons. cbn [snd].
  destruct (decide (m (cell_at name r) = true)); cbn [map fst]; rewrite IH; reflexivity.
Qed.

(** X18: the year filter keeps, in their order, exactly the rows whose year
    is a number within the range, bounds included, and leaves the columns as
    they are; a row whose year is missing is dropped whatever the range. On
    a table without a [year] column it raises the [KeyError]. *)
Theorem filter_year_range_rows (lo hi : Z) (df : DataFrame) :
  ("year" ∉ columns df → filter_year_range (lo, hi) df = inl (KeyError "year")) ∧
  (∀ out, filter_year_range (lo, hi) df = inr out →
     columns out = columns df ∧
     rows out `sublist_of` rows df ∧
     ∀ r, r ∈ rows out ↔
          r ∈ rows df ∧
          ∃ q, cell_at "year" r = CNum q ∧ (Qc_of_Z lo ≤ q)%Qc ∧ (q ≤ Qc_of_Z hi)%Qc).
Proof.
  unfold filter_year_range, getcol. cbn [fst snd]. split.
  - intros Hno. rewrite decide_False by exact Hno. reflexivity.
  - intros out. destruct (decide ("year" ∈ columns df)) as [Hcol|]; [|discriminate].
    cbn [mbind result_bind].
    destruct (mapM (in_year_range lo hi) (column "year" df)) as [e|mask] eqn:Hmask;
      [discriminate|].
    cbn [mbind result_bind mret result_ret]. intros [= <-].
    set (m := λ c, match in_year_range lo hi c with inr b => b | inl _ => false end).
    assert (Hm : mask = map m (column "year" df)).
    { clear Hcol. revert mask Hmask. unfold column.
      induction (rows df) as [|r rs IH]; intros mask Hmask.
      - cbn in Hmask. injection Hmask as <-. reflexivity.
      - cbn [map mapM] in Hmask.
        destruct (in_year_range lo hi (cell_at "year" r)) as [e|b] eqn:Hb;
          [discriminate|].
        cbn [mbind result_bind] in Hmask.
        destruct (mapM (in_year_range lo hi) (map (cell_at "year") rs)) as [e|bs];
          [discriminate|].
        cbn [mbind result_bind mret result_ret] in Hmask. injection Hmask as <-.
        cbn [map]. rewrite <- (IH bs eq_refl). unfold m. rewrite Hb. reflexivity. }
    rewrite Hm, boolean_index_map. cbn [columns rows].
    split; [reflexivity|]. split; [apply sublist_filter|].
    intros r. rewrite list_elem_of_filter. unfold m, in_year_range.
    split.
    + intros [Hr Hin]. split; [exact Hin|].
      destruct (cell_at "year" r) as [s|q|]; try discriminate.
      apply andb_true_iff in Hr as [H1 H2].
      apply bool_decide_eq_true in H1, H2. eauto.
    + intros [Hin (q & -> & H1 & H2)]. split; [|exact Hin].
      apply andb_true_iff. split; apply bool_decide_eq_true; assumption.
Qed.

Lemma filter_year_range_rows_witness :
  let df := mkDF ["year"] [ {[ "year" := CNum (Qc_of_Z 2001) ]};
                              {[ "year" := CNaN ]};
                              {[ "year" := CNum (Qc_of_Z 1990) ]} ] in
  let out := mkDF ["year"] [ {[ "year" := CNum (Qc_of_Z 2001) ]} ] in
  filter_year_range (2000, 2010)%Z (mkDF ["month"] []) = inl (KeyError "year") ∧
  columns out = columns df ∧
  rows out `sublist_of` rows df ∧
  ∀ r, r ∈ rows out ↔
       r ∈ rows df ∧
       ∃ q, cell_at "year" r = CNum q ∧
            (Qc_of_Z 2000 ≤ q)%Qc ∧ (q ≤ Qc_of_Z 2010)%Qc.
Proof.
  intros df out. split.
  - apply (filter_year_range_rows 2000 2010 (mkDF ["month"] [])).
    intros H. enumerate H; discriminate.
  - apply (filter_year_range_rows 2000 2010 df). vm_compute. reflexivity.
Defined.

(** X19: the filter by selection (aircraft type, flight phase) leaves the
    table as it is when nothing is selected or when ['All'] is among the
    selection, even beside other choices; otherwise it keeps, in their
    order, exactly the rows whose cell is one of the selected strings (a row
    whose cell is missing is dropped), and raises the [KeyError] when the
    table has no such column. *)
Theorem filter_selected_rows (field : string) (selected : list string) (df : DataFrame) :
  if bool_decide ("All" ∈ selected ∨ selected = []) then
    filter_selected field selected df = inr df
  else if decide (field ∈ columns df) then
    ∃ out, filter_selected field selected df = inr out ∧
           columns out = columns df ∧
           rows out `sublist_of` rows df ∧
           ∀ r, r ∈ rows out ↔
                r ∈ rows df ∧ ∃ s, cell_at field r = CStr s ∧ s ∈ selected
  else filter_selected field selected df = inl (KeyError field).
Proof.
  unfold filter_selected.
  destruct (bool_decide ("All" ∈ selected ∨ selected = [])) eqn:Hguard.
  - apply bool_decide_eq_true in Hguard as [Hall| ->].
    + rewrite (bool_decide_false ("All" ∉ selected)) by tauto. reflexivity.
    + rewrite (bool_decide_false ([] ≠ [])) by tauto. rewrite andb_false_r. reflexivity.
  - apply bool_decide_eq_false in Hguard.
    rewrite (bool_decide_true ("All" ∉ selected)) by tauto.
    rewrite (bool_decide_true (selected ≠ [])) by tauto.
    cbn [andb]. unfold getcol.
    destruct (decide (field ∈ columns df)) as [Hcol|Hcol]; [|reflexivity].
    cbn [mbind result_bind mret result_ret].
    rewrite boolean_index_map. eexists. split; [reflexivity|].
    cbn [columns rows]. split; [reflexivity|]. split; [apply sublist_filter|].
    intros r. rewrite list_elem_of_filter. unfold isin. split.
    + intros [Hr Hin]. split; [exact Hin|].
      destruct (cell_at field r) as [s|q|]; try discriminate.
      apply bool_decide_eq_true in Hr. eauto.
    + intros [Hin (s & -> & Hs)]. split; [|exact Hin].
      apply bool_decide_eq_true, Hs.
Qed.
